(** * Offload coordination engine: a shallow embedding of
      [IOffloadManager.hpp] and [MockOffloadManager.hpp]

    The C++ data model is transcribed field by field.  [size_t] values are
    integers in [0, 2^64) with the wrap-around written out, [double] is the
    IEEE binary64 type of the kernel, clock readings are integers (the tick
    count of [steady_clock]) handed to every function that calls
    [steady_clock::now()], in call order.  The four [std::function] callback
    slots are modelled by their emptiness; invoking a non-empty slot appends
    an event to the trace of the running operation.  A test hook is
    modelled by the function of its arguments that it computes. *)

From Stdlib Require Import ZArith List String Bool Lia Floats Permutation.
Import ListNotations.
Open Scope string_scope.
Open Scope list_scope.
Open Scope Z_scope.

(** ** Machine integers and doubles *)

Definition size_t_max : Z := 2 ^ 64 - 1.

(** Arithmetic on [size_t] is modulo 2^64. *)
Definition wrap64 (z : Z) : Z := z mod 2 ^ 64.

Definition is_size_t (z : Z) : Prop := 0 <= z <= size_t_max.

(** Integer to [double] conversion, round to nearest even. *)
Definition double_of_Z (z : Z) : float :=
  SF2Prim (binary_normalize prec emax z 0 false).

Arguments wrap64 : simpl never.
Arguments double_of_Z : simpl never.

(** [steady_clock::time_point], as [time_since_epoch().count()] in
    nanoseconds; a default-constructed time point is the epoch. *)
Definition time_point : Type := Z.

Definition epoch : time_point := 0.

(** [duration_cast] truncates towards zero. *)
Definition to_microseconds (ns : Z) : Z := Z.quot ns 1000.
Definition to_seconds (ns : Z) : Z := Z.quot ns 1000000000.

Arguments to_microseconds : simpl never.
Arguments to_seconds : simpl never.

(** ** IOffloadManager.hpp *)

Inductive OffloadStatus : Type :=
| Idle
| Preparing
| Transferring
| Completing
| Completed
| Failed
| Cancelled
| Paused.

Definition status_eqb (a b : OffloadStatus) : bool :=
  match a, b with
  | Idle, Idle | Preparing, Preparing | Transferring, Transferring
  | Completing, Completing | Completed, Completed | Failed, Failed
  | Cancelled, Cancelled | Paused, Paused => true
  | _, _ => false
  end.

Definition to_string (status : OffloadStatus) : string :=
  match status with
  | Idle => "Idle"
  | Preparing => "Preparing"
  | Transferring => "Transferring"
  | Completing => "Completing"
  | Completed => "Completed"
  | Failed => "Failed"
  | Cancelled => "Cancelled"
  | Paused => "Paused"
  end.

Inductive NodeHealth : Type :=
| Healthy
| Degraded
| Unhealthy
| Unknown.

Definition health_eqb (a b : NodeHealth) : bool :=
  match a, b with
  | Healthy, Healthy | Degraded, Degraded
  | Unhealthy, Unhealthy | Unknown, Unknown => true
  | _, _ => false
  end.

Record TargetNode : Type := mkTargetNode {
  node_id : string;
  host : string;
  port : Z;
  cluster_id : string;
  region : string;
  total_storage_bytes : Z;
  available_storage_bytes : Z;
  used_storage_bytes : Z;
  cpu_usage_percent : float;
  memory_usage_percent : float;
  network_utilization_percent : float;
  health : NodeHealth;
  accepting_offloads : bool;
  active_offload_count : Z;
  max_concurrent_offloads : Z;
  last_health_check : time_point;
  last_successful_offload : time_point
}.

(** The member initialisers of [struct TargetNode]. *)
Definition default_TargetNode : TargetNode := {|
  node_id := "";
  host := "";
  port := 5432;
  cluster_id := "";
  region := "";
  total_storage_bytes := 0;
  available_storage_bytes := 0;
  used_storage_bytes := 0;
  cpu_usage_percent := 0%float;
  memory_usage_percent := 0%float;
  network_utilization_percent := 0%float;
  health := Unknown;
  accepting_offloads := true;
  active_offload_count := 0;
  max_concurrent_offloads := 10;
  last_health_check := epoch;
  last_successful_offload := epoch
|}.

Definition storage_usage_percent (n : TargetNode) : float :=
  if total_storage_bytes n =? 0 then 0%float
  else PrimFloat.div
         (PrimFloat.mul 100%float (double_of_Z (used_storage_bytes n)))
         (double_of_Z (total_storage_bytes n)).

Definition can_accept_offload (n : TargetNode) : bool :=
  accepting_offloads n &&
  health_eqb (health n) Healthy &&
  (active_offload_count n <? max_concurrent_offloads n).

Record OffloadConfig : Type := mkOffloadConfig {
  memory_threshold_percent : float;
  storage_threshold_percent : float;
  min_byte_difference : Z;
  max_byte_per_transfer : Z;
  segment_size : Z;
  max_concurrent_transfers : Z;
  transfer_buffer_size : Z;
  connect_timeout : Z;
  transfer_timeout : Z;
  health_check_interval : Z;
  max_retries : Z;
  retry_delay : Z;
  retry_backoff_multiplier : float;
  auto_offload : bool;
  compress_transfers : bool;
  verify_integrity : bool;
  prefer_local_region : bool;
  min_available_storage_bytes : Z;
  max_target_cpu_usage : float;
  max_target_memory_usage : float
}.

Definition default_OffloadConfig : OffloadConfig := {|
  memory_threshold_percent := 80%float;
  storage_threshold_percent := 85%float;
  min_byte_difference := 100 * 1024 * 1024;
  max_byte_per_transfer := 1024 * 1024 * 1024 * 10;
  segment_size := 1 * 1024 * 1024;
  max_concurrent_transfers := 4;
  transfer_buffer_size := 64 * 1024;
  connect_timeout := 30;
  transfer_timeout := 300;
  health_check_interval := 10;
  max_retries := 3;
  retry_delay := 1000;
  retry_backoff_multiplier := 2%float;
  auto_offload := true;
  compress_transfers := true;
  verify_integrity := true;
  prefer_local_region := true;
  min_available_storage_bytes := 1024 * 1024 * 1024;
  max_target_cpu_usage := 80%float;
  max_target_memory_usage := 85%float
|}.

Record OffloadProgress : Type := mkOffloadProgress {
  total_bytes : Z;
  transferred_bytes : Z;
  pending_bytes : Z;
  segments_total : Z;
  segments_completed : Z;
  segments_failed : Z;
  segments_pending : Z;
  start_time : time_point;
  last_update : time_point;
  elapsed : Z;
  bytes_per_second : float;
  average_bytes_per_second : float;
  error_message : option string;
  current_segment_id : option string
}.

(** [OffloadProgress{}]. *)
Definition default_OffloadProgress : OffloadProgress := {|
  total_bytes := 0;
  transferred_bytes := 0;
  pending_bytes := 0;
  segments_total := 0;
  segments_completed := 0;
  segments_failed := 0;
  segments_pending := 0;
  start_time := epoch;
  last_update := epoch;
  elapsed := 0;
  bytes_per_second := 0%float;
  average_bytes_per_second := 0%float;
  error_message := None;
  current_segment_id := None
|}.

Definition progress_percent (p : OffloadProgress) : float :=
  if total_bytes p =? 0 then 0%float
  else PrimFloat.div
         (PrimFloat.mul 100%float (double_of_Z (transferred_bytes p)))
         (double_of_Z (total_bytes p)).

Definition completed_successfully (p : OffloadProgress) : bool :=
  (segments_completed p =? segments_total p) &&
  (0 <? segments_total p) &&
  match error_message p with None => true | Some _ => false end.

(** [OffloadResult::error_message] is [result_error_message] here: the field
    name is taken by [OffloadProgress]. *)
Record OffloadResult : Type := mkOffloadResult {
  success : bool;
  result_error_message : option string;
  final_progress : OffloadProgress;
  target_node : TargetNode;
  completed_at : time_point
}.

Definition duration (r : OffloadResult) : Z := elapsed (final_progress r).

(** ** MockOffloadManager.hpp: state *)

(** The trace of an operation.  The first four events are the invocations of
    the four callback slots with their arguments.  [StatusAssigned] is a
    history mark, not a call: it records every assignment to [status_], with
    the value overwritten and the value written. *)
Inductive Event : Type :=
| ProgressEvent (p : OffloadProgress)
| CompleteEvent (r : OffloadResult)
| ErrorEvent (msg : string)
| StatusChangeEvent (old_status new_status : OffloadStatus)
| StatusAssigned (old_status new_status : OffloadStatus).

Record MockOffloadManager : Type := mkManager {
  config_ : OffloadConfig;
  status_ : OffloadStatus;
  progress_ : OffloadProgress;
  current_target_ : option TargetNode;
  last_result_ : option OffloadResult;
  available_nodes_ : list TargetNode;
  (* callbacks: [true] when the slot holds a callable *)
  progress_callback_ : bool;
  complete_callback_ : bool;
  error_callback_ : bool;
  status_change_callback_ : bool;
  (* test hooks *)
  start_hook_ : option (unit -> bool);
  cancel_hook_ : option (unit -> bool);
  nodes_hook_ : option (unit -> list TargetNode);
  select_node_hook_ : option (string -> bool);
  offload_data_ids_ : list string
}.

Module Upd.

Definition config (v : OffloadConfig) (m : MockOffloadManager) :=
  mkManager v (status_ m) (progress_ m) (current_target_ m) (last_result_ m)
    (available_nodes_ m) (progress_callback_ m) (complete_callback_ m)
    (error_callback_ m) (status_change_callback_ m) (start_hook_ m)
    (cancel_hook_ m) (nodes_hook_ m) (select_node_hook_ m)
    (offload_data_ids_ m).

Definition status (v : OffloadStatus) (m : MockOffloadManager) :=
  mkManager (config_ m) v (progress_ m) (current_target_ m) (last_result_ m)
    (available_nodes_ m) (progress_callback_ m) (complete_callback_ m)
    (error_callback_ m) (status_change_callback_ m) (start_hook_ m)
    (cancel_hook_ m) (nodes_hook_ m) (select_node_hook_ m)
    (offload_data_ids_ m).

Definition progress (v : OffloadProgress) (m : MockOffloadManager) :=
  mkManager (config_ m) (status_ m) v (current_target_ m) (last_result_ m)
    (available_nodes_ m) (progress_callback_ m) (complete_callback_ m)
    (error_callback_ m) (status_change_callback_ m) (start_hook_ m)
    (cancel_hook_ m) (nodes_hook_ m) (select_node_hook_ m)
    (offload_data_ids_ m).

Definition current_target (v : option TargetNode) (m : MockOffloadManager) :=
  mkManager (config_ m) (status_ m) (progress_ m) v (last_result_ m)
    (available_nodes_ m) (progress_callback_ m) (complete_callback_ m)
    (error_callback_ m) (status_change_callback_ m) (start_hook_ m)
    (cancel_hook_ m) (nodes_hook_ m) (select_node_hook_ m)
    (offload_data_ids_ m).

Definition last_result (v : option OffloadResult) (m : MockOffloadManager) :=
  mkManager (config_ m) (status_ m) (progress_ m) (current_target_ m) v
    (available_nodes_ m) (progress_callback_ m) (complete_callback_ m)
    (error_callback_ m) (status_change_callback_ m) (start_hook_ m)
    (cancel_hook_ m) (nodes_hook_ m) (select_node_hook_ m)
    (offload_data_ids_ m).

Definition available_nodes (v : list TargetNode) (m : MockOffloadManager) :=
  mkManager (config_ m) (status_ m) (progress_ m) (current_target_ m)
    (last_result_ m) v (progress_callback_ m) (complete_callback_ m)
    (error_callback_ m) (status_change_callback_ m) (start_hook_ m)
    (cancel_hook_ m) (nodes_hook_ m) (select_node_hook_ m)
    (offload_data_ids_ m).

Definition progress_callback (v : bool) (m : MockOffloadManager) :=
  mkManager (config_ m) (status_ m) (progress_ m) (current_target_ m)
    (last_result_ m) (available_nodes_ m) v (complete_callback_ m)
    (error_callback_ m) (status_change_callback_ m) (start_hook_ m)
    (cancel_hook_ m) (nodes_hook_ m) (select_node_hook_ m)
    (offload_data_ids_ m).

Definition complete_callback (v : bool) (m : MockOffloadManager) :=
  mkManager (config_ m) (status_ m) (progress_ m) (current_target_ m)
    (last_result_ m) (available_nodes_ m) (progress_callback_ m) v
    (error_callback_ m) (status_change_callback_ m) (start_hook_ m)
    (cancel_hook_ m) (nodes_hook_ m) (select_node_hook_ m)
    (offload_data_ids_ m).

Definition error_callback (v : bool) (m : MockOffloadManager) :=
  mkManager (config_ m) (status_ m) (progress_ m) (current_target_ m)
    (last_result_ m) (available_nodes_ m) (progress_callback_ m)
    (complete_callback_ m) v (status_change_callback_ m) (start_hook_ m)
    (cancel_hook_ m) (nodes_hook_ m) (select_node_hook_ m)
    (offload_data_ids_ m).

Definition status_change_callback (v : bool) (m : MockOffloadManager) :=
  mkManager (config_ m) (status_ m) (progress_ m) (current_target_ m)
    (last_result_ m) (available_nodes_ m) (progress_callback_ m)
    (complete_callback_ m) (error_callback_ m) v (start_hook_ m)
    (cancel_hook_ m) (nodes_hook_ m) (select_node_hook_ m)
    (offload_data_ids_ m).

Definition start_hook (v : option (unit -> bool)) (m : MockOffloadManager) :=
  mkManager (config_ m) (status_ m) (progress_ m) (current_target_ m)
    (last_result_ m) (available_nodes_ m) (progress_callback_ m)
    (complete_callback_ m) (error_callback_ m) (status_change_callback_ m) v
    (cancel_hook_ m) (nodes_hook_ m) (select_node_hook_ m)
    (offload_data_ids_ m).

Definition cancel_hook (v : option (unit -> bool)) (m : MockOffloadManager) :=
  mkManager (config_ m) (status_ m) (progress_ m) (current_target_ m)
    (last_result_ m) (available_nodes_ m) (progress_callback_ m)
    (complete_callback_ m) (error_callback_ m) (status_change_callback_ m)
    (start_hook_ m) v (nodes_hook_ m) (select_node_hook_ m)
    (offload_data_ids_ m).

Definition nodes_hook (v : option (unit -> list TargetNode))
    (m : MockOffloadManager) :=
  mkManager (config_ m) (status_ m) (progress_ m) (current_target_ m)
    (last_result_ m) (available_nodes_ m) (progress_callback_ m)
    (complete_callback_ m) (error_callback_ m) (status_change_callback_ m)
    (start_hook_ m) (cancel_hook_ m) v (select_node_hook_ m)
    (offload_data_ids_ m).

Definition select_node_hook (v : option (string -> bool))
    (m : MockOffloadManager) :=
  mkManager (config_ m) (status_ m) (progress_ m) (current_target_ m)
    (last_result_ m) (available_nodes_ m) (progress_callback_ m)
    (complete_callback_ m) (error_callback_ m) (status_change_callback_ m)
    (start_hook_ m) (cancel_hook_ m) (nodes_hook_ m) v
    (offload_data_ids_ m).

Definition offload_data_ids (v : list string) (m : MockOffloadManager) :=
  mkManager (config_ m) (status_ m) (progress_ m) (current_target_ m)
    (last_result_ m) (available_nodes_ m) (progress_callback_ m)
    (complete_callback_ m) (error_callback_ m) (status_change_callback_ m)
    (start_hook_ m) (cancel_hook_ m) (nodes_hook_ m) (select_node_hook_ m) v.

End Upd.

(** ** The monad of member functions

    A member function maps the manager to its return value, the manager it
    leaves behind and the events it caused, oldest first. *)

Record Outcome (A : Type) : Type := mkOutcome {
  retval : A;
  post : MockOffloadManager;
  events : list Event
}.

Arguments mkOutcome {A} _ _ _.
Arguments retval {A} _.
Arguments post {A} _.
Arguments events {A} _.

Definition M (A : Type) : Type := MockOffloadManager -> Outcome A.

Definition ret {A : Type} (a : A) : M A := fun m => mkOutcome a m [].

Definition bind {A B : Type} (c : M A) (k : A -> M B) : M B :=
  fun m =>
    match c m with
    | mkOutcome a m1 e1 =>
        match k a m1 with
        | mkOutcome b m2 e2 => mkOutcome b m2 (e1 ++ e2)
        end
    end.

Definition gets {A : Type} (f : MockOffloadManager -> A) : M A :=
  fun m => mkOutcome (f m) m [].

Definition modify (f : MockOffloadManager -> MockOffloadManager) : M unit :=
  fun m => mkOutcome tt (f m) [].

Definition emit (e : Event) : M unit := fun m => mkOutcome tt m [e].

Definition when (b : bool) (c : M unit) : M unit := if b then c else ret tt.

Declare Scope manager_scope.
Delimit Scope manager_scope with mgr.
Notation "x <- c ;; k" := (bind c (fun x => k))
  (at level 61, c at next level, right associativity) : manager_scope.
Notation "c ;; k" := (bind c (fun _ => k))
  (at level 61, right associativity) : manager_scope.
Open Scope manager_scope.

(** Field updates of [OffloadProgress] and [TargetNode]. *)
Module PUpd.

Definition set_transferred_bytes (v : Z) (p : OffloadProgress) :=
  mkOffloadProgress (total_bytes p) v (pending_bytes p) (segments_total p)
    (segments_completed p) (segments_failed p) (segments_pending p)
    (start_time p) (last_update p) (elapsed p) (bytes_per_second p)
    (average_bytes_per_second p) (error_message p) (current_segment_id p).

Definition set_pending_bytes (v : Z) (p : OffloadProgress) :=
  mkOffloadProgress (total_bytes p) (transferred_bytes p) v
    (segments_total p) (segments_completed p) (segments_failed p)
    (segments_pending p) (start_time p) (last_update p) (elapsed p)
    (bytes_per_second p) (average_bytes_per_second p) (error_message p)
    (current_segment_id p).

Definition set_segments_completed (v : Z) (p : OffloadProgress) :=
  mkOffloadProgress (total_bytes p) (transferred_bytes p)
    (pending_bytes p) (segments_total p) v (segments_failed p)
    (segments_pending p) (start_time p) (last_update p) (elapsed p)
    (bytes_per_second p) (average_bytes_per_second p) (error_message p)
    (current_segment_id p).

Definition set_segments_pending (v : Z) (p : OffloadProgress) :=
  mkOffloadProgress (total_bytes p) (transferred_bytes p)
    (pending_bytes p) (segments_total p)
    (segments_completed p) (segments_failed p) v (start_time p)
    (last_update p) (elapsed p) (bytes_per_second p)
    (average_bytes_per_second p) (error_message p) (current_segment_id p).

Definition set_last_update (v : time_point) (p : OffloadProgress) :=
  mkOffloadProgress (total_bytes p) (transferred_bytes p)
    (pending_bytes p) (segments_total p)
    (segments_completed p) (segments_failed p)
    (segments_pending p) (start_time p) v (elapsed p)
    (bytes_per_second p) (average_bytes_per_second p) (error_message p)
    (current_segment_id p).

Definition set_elapsed (v : Z) (p : OffloadProgress) :=
  mkOffloadProgress (total_bytes p) (transferred_bytes p)
    (pending_bytes p) (segments_total p)
    (segments_completed p) (segments_failed p)
    (segments_pending p) (start_time p) (last_update p) v
    (bytes_per_second p) (average_bytes_per_second p) (error_message p)
    (current_segment_id p).

Definition set_bytes_per_second (v : float) (p : OffloadProgress) :=
  mkOffloadProgress (total_bytes p) (transferred_bytes p)
    (pending_bytes p) (segments_total p)
    (segments_completed p) (segments_failed p)
    (segments_pending p) (start_time p) (last_update p)
    (elapsed p) v (average_bytes_per_second p) (error_message p)
    (current_segment_id p).

Definition set_average_bytes_per_second (v : float) (p : OffloadProgress) :=
  mkOffloadProgress (total_bytes p) (transferred_bytes p)
    (pending_bytes p) (segments_total p)
    (segments_completed p) (segments_failed p)
    (segments_pending p) (start_time p) (last_update p)
    (elapsed p) (bytes_per_second p) v (error_message p)
    (current_segment_id p).

Definition set_error_message (v : option string) (p : OffloadProgress) :=
  mkOffloadProgress (total_bytes p) (transferred_bytes p)
    (pending_bytes p) (segments_total p)
    (segments_completed p) (segments_failed p)
    (segments_pending p) (start_time p) (last_update p)
    (elapsed p) (bytes_per_second p)
    (average_bytes_per_second p) v (current_segment_id p).

End PUpd.

Module NUpd.

Definition set_health (v : NodeHealth) (n : TargetNode) :=
  mkTargetNode (node_id n) (host n) (port n) (cluster_id n) (region n)
    (total_storage_bytes n) (available_storage_bytes n)
    (used_storage_bytes n) (cpu_usage_percent n) (memory_usage_percent n)
    (network_utilization_percent n) v (accepting_offloads n)
    (active_offload_count n) (max_concurrent_offloads n)
    (last_health_check n) (last_successful_offload n).

Definition set_last_health_check (v : time_point) (n : TargetNode) :=
  mkTargetNode (node_id n) (host n) (port n) (cluster_id n) (region n)
    (total_storage_bytes n) (available_storage_bytes n)
    (used_storage_bytes n) (cpu_usage_percent n) (memory_usage_percent n)
    (network_utilization_percent n) (health n)
    (accepting_offloads n) (active_offload_count n)
    (max_concurrent_offloads n) v (last_successful_offload n).

Definition set_active_offload_count (v : Z) (n : TargetNode) :=
  mkTargetNode (node_id n) (host n) (port n) (cluster_id n) (region n)
    (total_storage_bytes n) (available_storage_bytes n)
    (used_storage_bytes n) (cpu_usage_percent n) (memory_usage_percent n)
    (network_utilization_percent n) (health n) (accepting_offloads n) v
    (max_concurrent_offloads n) (last_health_check n)
    (last_successful_offload n).

End NUpd.

(** ** MockOffloadManager.hpp: private members *)

Definition set_status (new_status : OffloadStatus) : M unit :=
  old_status <- gets status_ ;;
  modify (Upd.status new_status) ;;
  emit (StatusAssigned old_status new_status) ;;
  cb <- gets status_change_callback_ ;;
  when (cb && negb (status_eqb old_status new_status))
       (emit (StatusChangeEvent old_status new_status)).

Definition notify_error (error : string) : M unit :=
  cb <- gets error_callback_ ;;
  when cb (emit (ErrorEvent error)).

Definition notify_progress (now : time_point) : M unit :=
  modify (fun m => Upd.progress (PUpd.set_last_update now (progress_ m)) m) ;;
  p <- gets progress_ ;;
  when (0 <? start_time p)
       (modify (Upd.progress
          (PUpd.set_elapsed (to_microseconds (last_update p - start_time p)) p))) ;;
  cb <- gets progress_callback_ ;;
  p' <- gets progress_ ;;
  when cb (emit (ProgressEvent p')).

Definition notify_complete (success : bool) (now : time_point) : M unit :=
  p <- gets progress_ ;;
  tgt <- gets current_target_ ;;
  let result := {|
    success := success;
    result_error_message :=
      if negb success then error_message p else None;
    final_progress := p;
    target_node :=
      match tgt with Some t => t | None => default_TargetNode end;
    completed_at := now
  |} in
  modify (Upd.last_result (Some result)) ;;
  cb <- gets complete_callback_ ;;
  when cb (emit (CompleteEvent result)).

(** ** MockOffloadManager.hpp: public members *)

Definition create_mock_node (id host : string) (available_storage : Z)
    (cpu memory : float) (now : time_point) : TargetNode := {|
  node_id := id;
  host := host;
  port := 5432;
  cluster_id := "test-cluster";
  region := "us-east-1";
  total_storage_bytes := wrap64 (available_storage * 2);
  available_storage_bytes := available_storage;
  used_storage_bytes := available_storage;
  cpu_usage_percent := cpu;
  memory_usage_percent := memory;
  network_utilization_percent := 0%float;
  health := Healthy;
  accepting_offloads := true;
  active_offload_count := 0;
  max_concurrent_offloads := 10;
  last_health_check := now;
  last_successful_offload := epoch
|}.

(** The three nodes of the constructor and of [reset]; [cpu] and [memory]
    take their default arguments. *)
Definition default_mock_nodes (t1 t2 t3 : time_point) : list TargetNode :=
  [ create_mock_node "node1" "192.168.1.10" (100 * 1024 * 1024 * 1024)
      30%float 40%float t1;
    create_mock_node "node2" "192.168.1.11" (200 * 1024 * 1024 * 1024)
      30%float 40%float t2;
    create_mock_node "node3" "192.168.1.12" (50 * 1024 * 1024 * 1024)
      30%float 40%float t3 ].

(** [MockOffloadManager()]. *)
Definition new_manager (t1 t2 t3 : time_point) : MockOffloadManager := {|
  config_ := default_OffloadConfig;
  status_ := Idle;
  progress_ := default_OffloadProgress;
  current_target_ := None;
  last_result_ := None;
  available_nodes_ := default_mock_nodes t1 t2 t3;
  progress_callback_ := false;
  complete_callback_ := false;
  error_callback_ := false;
  status_change_callback_ := false;
  start_hook_ := None;
  cancel_hook_ := None;
  nodes_hook_ := None;
  select_node_hook_ := None;
  offload_data_ids_ := []
|}.

Definition set_config (config : OffloadConfig) : M unit :=
  modify (Upd.config config).

Definition get_config : M OffloadConfig := gets config_.

Definition get_available_nodes : M (list TargetNode) :=
  hook <- gets nodes_hook_ ;;
  match hook with
  | Some h => ret (h tt)
  | None => gets available_nodes_
  end.

Definition refresh_nodes (now : time_point) : M bool :=
  modify (fun m =>
    Upd.available_nodes
      (map (NUpd.set_last_health_check now) (available_nodes_ m)) m) ;;
  ret true.

(** The loop of [select_target_node]: the first node whose id matches
    decides; [None] when the loop runs to its end. *)
Fixpoint select_scan (nodes : list TargetNode) (id : string)
    : option TargetNode :=
  match nodes with
  | [] => None
  | node :: rest =>
      if String.eqb (node_id node) id then Some node else select_scan rest id
  end.

Definition select_target_node (id : string) : M bool :=
  hook <- gets select_node_hook_ ;;
  match hook with
  | Some h => ret (h id)
  | None =>
      nodes <- gets available_nodes_ ;;
      match select_scan nodes id with
      | Some node =>
          if negb (can_accept_offload node) then
            notify_error
              (String.append "Node "
                 (String.append id " cannot accept offloads")) ;;
            ret false
          else
            modify (Upd.current_target (Some node)) ;;
            ret true
      | None =>
          notify_error (String.append "Node not found: " id) ;;
          ret false
      end
  end.

(** The loop of [auto_select_target_node], [best] being the node the
    pointer refers to. *)
Fixpoint best_scan (nodes : list TargetNode) (best : option TargetNode)
    : option TargetNode :=
  match nodes with
  | [] => best
  | node :: rest =>
      if can_accept_offload node then
        match best with
        | None => best_scan rest (Some node)
        | Some b =>
            if available_storage_bytes b <? available_storage_bytes node
            then best_scan rest (Some node)
            else best_scan rest best
        end
      else best_scan rest best
  end.

Definition auto_select_target_node : M bool :=
  nodes <- gets available_nodes_ ;;
  match best_scan nodes None with
  | Some best =>
      modify (Upd.current_target (Some best)) ;;
      ret true
  | None =>
      notify_error "No suitable target node available" ;;
      ret false
  end.

Definition get_current_target : M (option TargetNode) := gets current_target_.

Definition clear_target_selection : M unit :=
  modify (Upd.current_target None).

Definition start_offload (data_ids : list string) (now : time_point)
    : M bool :=
  hook <- gets start_hook_ ;;
  match hook with
  | Some h =>
      let result := h tt in
      when result (set_status Transferring) ;;
      ret result
  | None =>
      tgt <- gets current_target_ ;;
      match tgt with
      | None =>
          notify_error "No target node selected" ;;
          ret false
      | Some _ =>
          st <- gets status_ ;;
          if negb (status_eqb st Idle) && negb (status_eqb st Paused) then
            notify_error
              "Offload already in progress or not in valid state" ;;
            ret false
          else
            modify (Upd.offload_data_ids data_ids) ;;
            modify (Upd.progress {|
              total_bytes := 100 * 1024 * 1024;
              transferred_bytes := 0;
              pending_bytes := 100 * 1024 * 1024;
              segments_total := 100;
              segments_completed := 0;
              segments_failed := 0;
              segments_pending := 100;
              start_time := now;
              last_update := epoch;
              elapsed := 0;
              bytes_per_second := 0%float;
              average_bytes_per_second := 0%float;
              error_message := None;
              current_segment_id := None
            |}) ;;
            set_status Preparing ;;
            set_status Transferring ;;
            ret true
      end
  end.

(** [start_offload()] forwards an empty id list. *)
Definition start_offload_all (now : time_point) : M bool :=
  start_offload [] now.

Definition cancel_offload (now : time_point) : M bool :=
  hook <- gets cancel_hook_ ;;
  match hook with
  | Some h => ret (h tt)
  | None =>
      st <- gets status_ ;;
      if status_eqb st Idle || status_eqb st Completed ||
         status_eqb st Failed || status_eqb st Cancelled then
        notify_error "No active offload to cancel" ;;
        ret false
      else
        set_status Cancelled ;;
        notify_complete false now ;;
        ret true
  end.

Definition pause_offload : M bool :=
  st <- gets status_ ;;
  if negb (status_eqb st Transferring) then
    notify_error "Cannot pause: not transferring" ;;
    ret false
  else
    set_status Paused ;;
    ret true.

Definition resume_offload : M bool :=
  st <- gets status_ ;;
  if negb (status_eqb st Paused) then
    notify_error "Cannot resume: not paused" ;;
    ret false
  else
    set_status Transferring ;;
    ret true.

Definition get_status : M OffloadStatus := gets status_.

Definition get_progress : M OffloadProgress := gets progress_.

Definition is_active : M bool :=
  st <- gets status_ ;;
  ret (status_eqb st Preparing || status_eqb st Transferring ||
       status_eqb st Completing || status_eqb st Paused).

Definition get_last_result : M (option OffloadResult) := gets last_result_.

Definition on_progress (callback : bool) : M unit :=
  modify (Upd.progress_callback callback).

Definition on_complete (callback : bool) : M unit :=
  modify (Upd.complete_callback callback).

Definition on_error (callback : bool) : M unit :=
  modify (Upd.error_callback callback).

Definition on_status_change (callback : bool) : M unit :=
  modify (Upd.status_change_callback callback).

(** ** MockOffloadManager.hpp: test helper methods *)

Definition set_start_hook (hook : option (unit -> bool)) : M unit :=
  modify (Upd.start_hook hook).

Definition set_cancel_hook (hook : option (unit -> bool)) : M unit :=
  modify (Upd.cancel_hook hook).

Definition set_nodes_hook (hook : option (unit -> list TargetNode))
    : M unit :=
  modify (Upd.nodes_hook hook).

Definition set_select_node_hook (hook : option (string -> bool)) : M unit :=
  modify (Upd.select_node_hook hook).

Definition force_status (status : OffloadStatus) : M unit :=
  set_status status.

(** [now1] is the reading taken for the transfer rate, [now2] the one taken
    by [notify_progress]. *)
Definition simulate_progress (bytes : Z) (now1 now2 : time_point) : M unit :=
  modify (fun m =>
    let p := progress_ m in
    let p := PUpd.set_transferred_bytes
               (wrap64 (transferred_bytes p + bytes)) p in
    let p := PUpd.set_pending_bytes
               (wrap64 (total_bytes p - transferred_bytes p)) p in
    let p := PUpd.set_segments_completed
               (wrap64 (segments_completed p + 1)) p in
    let p := PUpd.set_segments_pending
               (wrap64 (segments_total p - segments_completed p)) p in
    let p :=
      if 0 <? start_time p then
        let elapsed := to_seconds (now1 - start_time p) in
        if 0 <? elapsed then
          PUpd.set_average_bytes_per_second
            (PrimFloat.div (double_of_Z (transferred_bytes p))
                           (double_of_Z elapsed)) p
        else p
      else p in
    let p := PUpd.set_bytes_per_second (double_of_Z bytes) p in
    Upd.progress p m) ;;
  notify_progress now2.

Definition simulate_complete (success : bool) (now : time_point) : M unit :=
  (if success then
     modify (fun m =>
       let p := progress_ m in
       let p := PUpd.set_transferred_bytes (total_bytes p) p in
       let p := PUpd.set_pending_bytes 0 p in
       let p := PUpd.set_segments_completed (segments_total p) p in
       let p := PUpd.set_segments_pending 0 p in
       Upd.progress p m) ;;
     set_status Completing ;;
     set_status Completed
   else
     set_status Failed) ;;
  notify_complete success now.

Definition simulate_error (error : string) (now : time_point) : M unit :=
  modify (fun m =>
    Upd.progress (PUpd.set_error_message (Some error) (progress_ m)) m) ;;
  set_status Failed ;;
  notify_error error ;;
  notify_complete false now.

Definition set_available_nodes (nodes : list TargetNode) : M unit :=
  modify (Upd.available_nodes nodes).

Definition add_node (node : TargetNode) : M unit :=
  modify (fun m => Upd.available_nodes (available_nodes_ m ++ [node]) m).

Definition remove_node (id : string) : M unit :=
  modify (fun m =>
    Upd.available_nodes
      (filter (fun n => negb (String.eqb (node_id n) id))
              (available_nodes_ m)) m).

Definition clear_nodes : M unit := modify (Upd.available_nodes []).

(** The loop of [set_node_health]: the first match is updated, then
    [break]. *)
Fixpoint health_scan (nodes : list TargetNode) (id : string)
    (h : NodeHealth) : list TargetNode :=
  match nodes with
  | [] => []
  | node :: rest =>
      if String.eqb (node_id node) id then NUpd.set_health h node :: rest
      else node :: health_scan rest id h
  end.

Definition set_node_health (id : string) (h : NodeHealth) : M unit :=
  modify (fun m =>
    Upd.available_nodes (health_scan (available_nodes_ m) id h) m).

(** [reset] assigns [status_] directly, not through [set_status]. *)
Definition reset (t1 t2 t3 : time_point) : M unit :=
  old_status <- gets status_ ;;
  modify (Upd.status Idle) ;;
  emit (StatusAssigned old_status Idle) ;;
  modify (Upd.progress default_OffloadProgress) ;;
  modify (Upd.current_target None) ;;
  modify (Upd.last_result None) ;;
  modify (Upd.offload_data_ids []) ;;
  modify (Upd.start_hook None) ;;
  modify (Upd.cancel_hook None) ;;
  modify (Upd.nodes_hook None) ;;
  modify (Upd.select_node_hook None) ;;
  modify (Upd.available_nodes (default_mock_nodes t1 t2 t3)).

Definition get_offload_data_ids : M (list string) := gets offload_data_ids_.

Definition node_count : M Z :=
  nodes <- gets available_nodes_ ;;
  ret (Z.of_nat (List.length nodes)).

(** ** Operations as data

    One constructor per public member function that can change the manager,
    with its arguments and the clock readings it consumes. *)
Inductive Op : Type :=
| OpSetConfig (config : OffloadConfig)
| OpRefreshNodes (now : time_point)
| OpSelectTargetNode (id : string)
| OpAutoSelectTargetNode
| OpClearTargetSelection
| OpStartOffload (data_ids : list string) (now : time_point)
| OpCancelOffload (now : time_point)
| OpPauseOffload
| OpResumeOffload
| OpOnProgress (callback : bool)
| OpOnComplete (callback : bool)
| OpOnError (callback : bool)
| OpOnStatusChange (callback : bool)
| OpSetStartHook (hook : option (unit -> bool))
| OpSetCancelHook (hook : option (unit -> bool))
| OpSetNodesHook (hook : option (unit -> list TargetNode))
| OpSetSelectNodeHook (hook : option (string -> bool))
| OpForceStatus (status : OffloadStatus)
| OpSimulateProgress (bytes : Z) (now1 now2 : time_point)
| OpSimulateComplete (success : bool) (now : time_point)
| OpSimulateError (error : string) (now : time_point)
| OpSetAvailableNodes (nodes : list TargetNode)
| OpAddNode (node : TargetNode)
| OpRemoveNode (id : string)
| OpClearNodes
| OpSetNodeHealth (id : string) (h : NodeHealth)
| OpReset (t1 t2 t3 : time_point).

Definition discard {A : Type} (c : M A) : M unit := c ;; ret tt.

Definition exec (op : Op) : M unit :=
  match op with
  | OpSetConfig config => set_config config
  | OpRefreshNodes now => discard (refresh_nodes now)
  | OpSelectTargetNode id => discard (select_target_node id)
  | OpAutoSelectTargetNode => discard auto_select_target_node
  | OpClearTargetSelection => clear_target_selection
  | OpStartOffload data_ids now => discard (start_offload data_ids now)
  | OpCancelOffload now => discard (cancel_offload now)
  | OpPauseOffload => discard pause_offload
  | OpResumeOffload => discard resume_offload
  | OpOnProgress callback => on_progress callback
  | OpOnComplete callback => on_complete callback
  | OpOnError callback => on_error callback
  | OpOnStatusChange callback => on_status_change callback
  | OpSetStartHook hook => set_start_hook hook
  | OpSetCancelHook hook => set_cancel_hook hook
  | OpSetNodesHook hook => set_nodes_hook hook
  | OpSetSelectNodeHook hook => set_select_node_hook hook
  | OpForceStatus status => force_status status
  | OpSimulateProgress bytes now1 now2 => simulate_progress bytes now1 now2
  | OpSimulateComplete success now => simulate_complete success now
  | OpSimulateError error now => simulate_error error now
  | OpSetAvailableNodes nodes => set_available_nodes nodes
  | OpAddNode node => add_node node
  | OpRemoveNode id => remove_node id
  | OpClearNodes => clear_nodes
  | OpSetNodeHealth id h => set_node_health id h
  | OpReset t1 t2 t3 => reset t1 t2 t3
  end.

(** Running a script of operations, collecting the whole trace. *)
Fixpoint run (ops : list Op) : M unit :=
  match ops with
  | [] => ret tt
  | op :: rest => exec op ;; run rest
  end.

(** The managers a client can bring about: a constructed manager, then any
    sequence of public calls. *)
Inductive reachable : MockOffloadManager -> Prop :=
| reachable_new : forall t1 t2 t3, reachable (new_manager t1 t2 t3)
| reachable_exec : forall m op,
    reachable m -> reachable (post (exec op m)).

(** ** Reading traces *)

(** The assignments to [status_] recorded in a trace, oldest first. *)
Fixpoint status_writes (tr : list Event)
    : list (OffloadStatus * OffloadStatus) :=
  match tr with
  | [] => []
  | StatusAssigned a b :: rest => (a, b) :: status_writes rest
  | _ :: rest => status_writes rest
  end.

(** The argument pairs of the status-change callback invocations. *)
Fixpoint status_callbacks (tr : list Event)
    : list (OffloadStatus * OffloadStatus) :=
  match tr with
  | [] => []
  | StatusChangeEvent a b :: rest => (a, b) :: status_callbacks rest
  | _ :: rest => status_callbacks rest
  end.

(** The transitions among a list of assignments: those that change the
    value. *)
Definition transitions (ws : list (OffloadStatus * OffloadStatus))
    : list (OffloadStatus * OffloadStatus) :=
  filter (fun w => negb (status_eqb (fst w) (snd w))) ws.

(** Synchronous, exactly-once dispatch: every assignment that changes
    [status_] is followed at once by one callback invocation carrying the
    same pair, an assignment of the value already held by none, and no
    invocation occurs anywhere else. *)
Fixpoint dispatch_ok (tr : list Event) : bool :=
  match tr with
  | [] => true
  | StatusAssigned a b :: rest =>
      if status_eqb a b then dispatch_ok rest
      else
        match rest with
        | StatusChangeEvent a' b' :: rest' =>
            status_eqb a a' && status_eqb b b' && dispatch_ok rest'
        | _ => false
        end
  | StatusChangeEvent _ _ :: _ => false
  | _ :: rest => dispatch_ok rest
  end.

(** The assignments [ws] lead from [from] to [to] without a gap: each one
    overwrites the value the one before it wrote. *)
Fixpoint writes_chain (from : OffloadStatus)
    (ws : list (OffloadStatus * OffloadStatus)) (to : OffloadStatus)
    : bool :=
  match ws with
  | [] => status_eqb from to
  | (a, b) :: rest => status_eqb from a && writes_chain b rest to
  end.

(** [reset] is the one operation that assigns [status_] by itself. *)
Definition is_reset (op : Op) : bool :=
  match op with
  | OpReset _ _ _ => true
  | _ => false
  end.

(** ** Results and progress accounting *)

(** What [notify_complete] stores as the target of the result. *)
Definition target_at_completion (m : MockOffloadManager) : TargetNode :=
  match current_target_ m with
  | Some t => t
  | None => default_TargetNode
  end.

(** What the counters of a progress record satisfy in every manager a
    client can bring about: they are [size_t] values, no segment is ever
    counted as failed, and the two pending counters are the wrapped
    differences. *)
Definition progress_wf (p : OffloadProgress) : Prop :=
  is_size_t (total_bytes p) /\
  is_size_t (transferred_bytes p) /\
  is_size_t (segments_total p) /\
  is_size_t (segments_completed p) /\
  segments_failed p = 0 /\
  pending_bytes p = wrap64 (total_bytes p - transferred_bytes p) /\
  segments_pending p = wrap64 (segments_total p - segments_completed p).

(** ** Automatic selection: the rule of the specification

    The three definitions below follow the words of the specification
    (4.1, auto_select), not the code; they are what the code is compared
    with.  [source_region] is the region of the node that offloads, which
    rule (a) refers to. *)

Definition spec_admissible (cfg : OffloadConfig) (n : TargetNode) : bool :=
  can_accept_offload n &&
  (min_available_storage_bytes cfg <=? available_storage_bytes n) &&
  PrimFloat.leb (cpu_usage_percent n) (max_target_cpu_usage cfg) &&
  PrimFloat.leb (memory_usage_percent n) (max_target_memory_usage cfg).

Definition spec_ranks_before (cfg : OffloadConfig) (source_region : string)
    (a b : TargetNode) : bool :=
  let is_local n :=
    prefer_local_region cfg && String.eqb (region n) source_region in
  if negb (Bool.eqb (is_local a) (is_local b)) then is_local a
  else if negb (available_storage_bytes a =? available_storage_bytes b)
  then available_storage_bytes b <? available_storage_bytes a
  else if negb (active_offload_count a =? active_offload_count b)
  then active_offload_count a <? active_offload_count b
  else String.ltb (node_id a) (node_id b).

Definition spec_auto_select (cfg : OffloadConfig) (source_region : string)
    (nodes : list TargetNode) : option TargetNode :=
  fold_left
    (fun best n =>
       match best with
       | None => Some n
       | Some b =>
           if spec_ranks_before cfg source_region n b then Some n
           else Some b
       end)
    (filter (spec_admissible cfg) nodes) None.

(** ** Segmenting *)

(** ceil(a / b), for positive [b]. *)
Definition ceil_div (a b : Z) : Z := (a + b - 1) / b.

(** The sum of a list of lengths. *)
Definition sum_Z (l : list Z) : Z := fold_right Z.add 0 l.

(** ** Managers, nodes and scripts used as concrete inputs *)

(** A constructed manager; the clock reads 1, 2, 3 while the default nodes
    are made. *)
Definition fresh_manager : MockOffloadManager := new_manager 1 2 3.

(** [fresh_manager] after [select_target_node("node1")]. *)
Definition node1_selected : MockOffloadManager :=
  post (select_target_node "node1" fresh_manager).

(** [node1_selected] after [start_offload()] at clock reading 10. *)
Definition node1_started : MockOffloadManager :=
  post (start_offload_all 10 node1_selected).

(** [node1_started] with a status-change subscriber. *)
Definition node1_started_subscribed : MockOffloadManager :=
  post (on_status_change true node1_started).

(** [node1_started] forced into [Completing]. *)
Definition node1_completing : MockOffloadManager :=
  post (force_status Completing node1_started).

(** [fresh_manager] with a start hook that accepts every start. *)
Definition start_hooked : MockOffloadManager :=
  post (set_start_hook (Some (fun _ => true)) fresh_manager).

(** [fresh_manager] with a select hook that accepts every id. *)
Definition select_hooked : MockOffloadManager :=
  post (set_select_node_hook (Some (fun _ => true)) fresh_manager).

(** [fresh_manager] with a cancel hook that accepts every cancel. *)
Definition cancel_hooked : MockOffloadManager :=
  post (set_cancel_hook (Some (fun _ => true)) fresh_manager).

(** [node1_started] with a select hook that rejects every id. *)
Definition started_select_hooked : MockOffloadManager :=
  post (set_select_node_hook (Some (fun _ => false)) node1_started).

(** Two nodes registered under one id, the first of them unhealthy. *)
Definition dup_bad : TargetNode :=
  NUpd.set_health Unhealthy
    (create_mock_node "dup" "10.0.0.1" 1000 30%float 40%float 1).

(** Its healthy namesake. *)
Definition dup_good : TargetNode :=
  create_mock_node "dup" "10.0.0.2" 2000 30%float 40%float 2.

(** [fresh_manager] with these two as its node list. *)
Definition dup_manager : MockOffloadManager :=
  post (set_available_nodes [dup_bad; dup_good] fresh_manager).

(** [node1_started] with the two-entry node list of [dup_manager]. *)
Definition started_dup : MockOffloadManager :=
  post (set_available_nodes [dup_bad; dup_good] node1_started).

(** [fresh_manager] after [set_available_nodes(nodes)]. *)
Definition with_nodes (nodes : list TargetNode) : MockOffloadManager :=
  post (set_available_nodes nodes fresh_manager).

(** A healthy node with 10 bytes of available storage. *)
Definition tiny_node : TargetNode :=
  create_mock_node "tiny" "10.0.0.3" 10 30%float 40%float 1.

(** A healthy node at 95 percent CPU. *)
Definition hot_node : TargetNode :=
  create_mock_node "hot" "10.0.0.4" (10 * 1024 * 1024 * 1024)
    95%float 40%float 1.

(** Two nodes that differ in id and in the number of active offloads. *)
Definition busy_node : TargetNode :=
  NUpd.set_active_offload_count 5
    (create_mock_node "busy" "10.0.0.5" (10 * 1024 * 1024 * 1024)
       30%float 40%float 1).

(** As [busy_node], with no active offload. *)
Definition idle_node : TargetNode :=
  create_mock_node "idle" "10.0.0.6" (10 * 1024 * 1024 * 1024)
    30%float 40%float 1.

(** Two nodes that differ in id only (and in host). *)
Definition zeta_node : TargetNode :=
  create_mock_node "zeta" "10.0.0.7" (10 * 1024 * 1024 * 1024)
    30%float 40%float 1.

(** As [zeta_node], with an earlier id. *)
Definition alpha_node : TargetNode :=
  create_mock_node "alpha" "10.0.0.8" (10 * 1024 * 1024 * 1024)
    30%float 40%float 1.

(** The configuration of the unit test [ConfigurationValidation]. *)
Definition test_config : OffloadConfig := {|
  memory_threshold_percent := 75%float;
  storage_threshold_percent := 85%float;
  min_byte_difference := 100 * 1024 * 1024;
  max_byte_per_transfer := 1024 * 1024 * 1024 * 10;
  segment_size := 2 * 1024 * 1024;
  max_concurrent_transfers := 4;
  transfer_buffer_size := 64 * 1024;
  connect_timeout := 30;
  transfer_timeout := 300;
  health_check_interval := 10;
  max_retries := 5;
  retry_delay := 1000;
  retry_backoff_multiplier := 2%float;
  auto_offload := false;
  compress_transfers := true;
  verify_integrity := true;
  prefer_local_region := true;
  min_available_storage_bytes := 1024 * 1024 * 1024;
  max_target_cpu_usage := 80%float;
  max_target_memory_usage := 85%float
|}.

(** The default configuration with a [segment_size] of zero, which
    [set_config] accepts as any other. *)
Definition zero_segment_config : OffloadConfig := {|
  memory_threshold_percent := 80%float;
  storage_threshold_percent := 85%float;
  min_byte_difference := 100 * 1024 * 1024;
  max_byte_per_transfer := 1024 * 1024 * 1024 * 10;
  segment_size := 0;
  max_concurrent_transfers := 4;
  transfer_buffer_size := 64 * 1024;
  connect_timeout := 30;
  transfer_timeout := 300;
  health_check_interval := 10;
  max_retries := 3;
  retry_delay := 1000;
  retry_backoff_multiplier := 2%float;
  auto_offload := true;
  compress_transfers := true;
  verify_integrity := true;
  prefer_local_region := true;
  min_available_storage_bytes := 1024 * 1024 * 1024;
  max_target_cpu_usage := 80%float;
  max_target_memory_usage := 85%float
|}.

(** Configure as the test does, select [node1], start. *)
Definition test_config_script : list Op :=
  [ OpSetConfig test_config;
    OpSelectTargetNode "node1";
    OpStartOffload [] 10 ].

(** Select [node1], start, report 10 MiB and 20 MiB. *)
Definition partial_progress_script : list Op :=
  [ OpSelectTargetNode "node1";
    OpStartOffload [] 10;
    OpSimulateProgress (10 * 1024 * 1024) 20 21;
    OpSimulateProgress (20 * 1024 * 1024) 30 31 ].


(** Select [node1], start, then report 2 MiB 101 times. *)
Definition segment_overshoot_script : list Op :=
  [ OpSelectTargetNode "node1"; OpStartOffload [] 10 ] ++
  repeat (OpSimulateProgress (2 * 1024 * 1024) 20 21) 101.

(** ** IOffloadManager.hpp: the remaining estimate *)

(** [static_cast<int64_t>] of a [double]: truncation towards zero; the
    conversion is undefined ([None]) for NaN, the infinities and values
    outside the range of [int64_t]. *)
Definition int64_of_double (f : float) : option Z :=
  match Prim2SF f with
  | S754_zero _ => Some 0
  | S754_finite s m e =>
      let magnitude :=
        if 0 <=? e then Z.pos m * 2 ^ e else Z.pos m / 2 ^ (- e) in
      let v := if s then - magnitude else magnitude in
      if (- 2 ^ 63 <=? v) && (v <? 2 ^ 63) then Some v else None
  | S754_infinity _ | S754_nan => None
  end.

(** [OffloadProgress::estimated_time_remaining], in seconds. *)
Definition estimated_time_remaining (p : OffloadProgress) : option Z :=
  if PrimFloat.leb (average_bytes_per_second p) 0%float
     || (pending_bytes p =? 0)
  then Some 0
  else int64_of_double
         (PrimFloat.div (double_of_Z (pending_bytes p))
                        (average_bytes_per_second p)).

(** ** Classes of operations *)

(** The operations that maintain the configuration, the node list, the
    subscriptions and the hooks. *)
Definition is_maintenance (op : Op) : bool :=
  match op with
  | OpSetConfig _ | OpRefreshNodes _ | OpOnProgress _ | OpOnComplete _
  | OpOnError _ | OpOnStatusChange _ | OpSetStartHook _ | OpSetCancelHook _
  | OpSetNodesHook _ | OpSetSelectNodeHook _ | OpSetAvailableNodes _
  | OpAddNode _ | OpRemoveNode _ | OpClearNodes | OpSetNodeHealth _ _ =>
      true
  | _ => false
  end.

(** [Completed], [Failed] and [Cancelled]. *)
Definition is_terminal (s : OffloadStatus) : bool :=
  match s with
  | Completed | Failed | Cancelled => true
  | _ => false
  end.

(** A series of [simulate_progress] calls, each with its byte count and
    its two clock readings. *)
Definition progress_reports (reports : list (Z * (time_point * time_point)))
    : list Op :=
  map (fun r => OpSimulateProgress (fst r) (fst (snd r)) (snd (snd r)))
      reports.

(** The byte counts of a series of reports, added up. *)
Definition reported_bytes (reports : list (Z * (time_point * time_point)))
    : Z :=
  sum_Z (map fst reports).

(** What never varies in the progress record of a manager a client can
    bring about. *)
Definition progress_shape (p : OffloadProgress) : Prop :=
  segments_failed p = 0 /\
  current_segment_id p = None /\
  ((total_bytes p = 0 /\ segments_total p = 0) \/
   (total_bytes p = 100 * 1024 * 1024 /\ segments_total p = 100)).

(** The selection, when there is one, passes [can_accept_offload]. *)
Definition target_admissible (m : MockOffloadManager) : Prop :=
  match current_target_ m with
  | Some t => can_accept_offload t = true
  | None => True
  end.

(** What [reset] leaves: a constructed manager, but for the configuration
    and the four callback slots, which it keeps. *)
Definition reset_image (t1 t2 t3 : time_point) (m : MockOffloadManager)
    : MockOffloadManager := {|
  config_ := config_ m;
  status_ := Idle;
  progress_ := default_OffloadProgress;
  current_target_ := None;
  last_result_ := None;
  available_nodes_ := default_mock_nodes t1 t2 t3;
  progress_callback_ := progress_callback_ m;
  complete_callback_ := complete_callback_ m;
  error_callback_ := error_callback_ m;
  status_change_callback_ := status_change_callback_ m;
  start_hook_ := None;
  cancel_hook_ := None;
  nodes_hook_ := None;
  select_node_hook_ := None;
  offload_data_ids_ := []
|}.

(** * Properties *)

Ltac destruct_manager m :=
  let c := fresh "cfg" in
  let st := fresh "st" in
  let pcb := fresh "pcb" in
  let ccb := fresh "ccb" in
  let ecb := fresh "ecb" in
  let scb := fresh "scb" in
  destruct m as [c st ? ? ? ? pcb ccb ecb scb ? ? ? ? ?].

(** Unfolds the monad; to be used once the tests on which the control flow
    depends have been decided by case analysis. *)
Ltac munfold :=
  cbv [bind ret gets modify emit when discard set_status notify_error
       force_status].

Ltac mstep := munfold; cbn.

Lemma status_eqb_eq (a b : OffloadStatus) : status_eqb a b = true <-> a = b.
Proof. destruct a, b; simpl; split; intro H; congruence. Qed.

Lemma status_eqb_refl (a : OffloadStatus) : status_eqb a a = true.
Proof. now destruct a. Qed.

(** ** The unit tests, replayed *)

(** [BasicOffloadOperation] and the end-to-end scenario: select [node1],
    start, report 30 MiB, complete. *)
Example end_to_end_replay :
  let started := post (run partial_progress_script fresh_manager) in
  let done := post (simulate_complete true 40 started) in
  status_ started = Transferring /\
  progress_percent (progress_ started) = 30%float /\
  status_ done = Completed /\
  progress_percent (progress_ done) = 100%float /\
  option_map success (last_result_ done) = Some true.
Proof. cbv zeta. repeat split; vm_compute; reflexivity. Qed.

(** [AutoSelectTargetNode]: of 100, 200 and 50 GiB the 200 GiB node is
    taken. *)
Example auto_select_replay :
  retval (auto_select_target_node fresh_manager) = true /\
  option_map node_id
    (current_target_ (post (auto_select_target_node fresh_manager)))
    = Some "node2".
Proof. split; reflexivity. Qed.

(** [TargetNodeUnavailable]: an unhealthy node is refused. *)
Example unhealthy_replay :
  retval
    (select_target_node "node1"
       (post (set_node_health "node1" Unhealthy fresh_manager))) = false.
Proof. reflexivity. Qed.

(** ** Pause and resume *)

(** C6: [pause_offload] returns [true] exactly from [Transferring] and then
    leaves [Paused]; [resume_offload] returns [true] exactly from [Paused]
    and then leaves [Transferring]; a rejected call returns [false] and
    leaves the manager, hence its status, as it was. *)
Theorem pause_resume_guard (m : MockOffloadManager) :
  (retval (pause_offload m) = true <-> status_ m = Transferring) /\
  (retval (resume_offload m) = true <-> status_ m = Paused) /\
  status_ (post (pause_offload m)) =
    (if retval (pause_offload m) then Paused else status_ m) /\
  status_ (post (resume_offload m)) =
    (if retval (resume_offload m) then Transferring else status_ m) /\
  (if retval (pause_offload m) then True else post (pause_offload m) = m) /\
  (if retval (resume_offload m) then True else post (resume_offload m) = m).
Proof.
  unfold pause_offload, resume_offload.
  destruct_manager m.
  destruct st, ecb, scb; mstep; intuition congruence.
Qed.

(** ** Starting an operation *)

(** C1, as amended: when no start hook is installed, [start_offload]
    returns [true] exactly when a target is selected and the status is
    [Idle] or [Paused]; a rejected start leaves the manager, hence its
    status, as it was; an accepted start assigns [Preparing] and then
    [Transferring], in this order and nothing else, and reports both
    transitions to a subscribed status-change callback.  [start_offload()]
    is [start_offload({})]. *)
Theorem start_offload_guard
    (m : MockOffloadManager) (data_ids : list string) (now : time_point) :
  start_hook_ m = None ->
  (retval (start_offload data_ids now m) = true <->
     current_target_ m <> None /\
     (status_ m = Idle \/ status_ m = Paused)) /\
  (retval (start_offload data_ids now m) = false ->
     post (start_offload data_ids now m) = m) /\
  (retval (start_offload data_ids now m) = true ->
     status_ (post (start_offload data_ids now m)) = Transferring /\
     status_writes (events (start_offload data_ids now m)) =
       [(status_ m, Preparing); (Preparing, Transferring)] /\
     (status_change_callback_ m = true ->
      status_callbacks (events (start_offload data_ids now m)) =
        [(status_ m, Preparing); (Preparing, Transferring)])) /\
  start_offload_all now m = start_offload [] now m.
Proof.
  intros Hhook. unfold start_offload_all, start_offload.
  destruct_manager m. cbn in Hhook. subst.
  match goal with
  | |- context [mkManager _ _ _ ?t] => destruct t as [tgt|]
  end;
    destruct st, ecb, scb; mstep; intuition (congruence || discriminate).
Qed.

(** The guard at a manager with [node1] selected and no hook. *)
Lemma start_offload_guard_witness :
  start_hook_ node1_selected = None /\
  retval (start_offload [] 10 node1_selected) = true.
Proof.
  split; [reflexivity|].
  apply (start_offload_guard node1_selected [] 10 eq_refl).
  split; [discriminate | left; reflexivity].
Defined.

(** C1, as stated, fails where a start hook is installed: the hook's answer
    is returned with no target selected, and the status is assigned
    [Transferring] at once, never [Preparing]. *)
Lemma start_offload_hook_counterexample :
  current_target_ start_hooked = None /\
  status_ start_hooked = Idle /\
  retval (start_offload [] 10 start_hooked) = true /\
  status_writes (events (start_offload [] 10 start_hooked)) =
    [(Idle, Transferring)].
Proof. repeat split. Qed.

(** ** Selecting a target by id *)

Lemma select_scan_first (nodes : list TargetNode) (id : string)
    (node : TargetNode) :
  select_scan nodes id = Some node <->
  exists before after,
    nodes = before ++ node :: after /\
    node_id node = id /\
    forall n, In n before -> node_id n <> id.
Proof.
  induction nodes as [|x rest IH]; simpl.
  - split; [discriminate|].
    intros (before & after & Heq & _). now destruct before.
  - destruct (String.eqb_spec (node_id x) id) as [Hx|Hx].
    + split.
      * intros [= <-]. exists [], rest. repeat split; [assumption|].
        intros n [].
      * intros (before & after & Heq & Hid & Hbefore).
        destruct before as [|y before]; simpl in Heq.
        -- congruence.
        -- injection Heq as <- _. exfalso. apply (Hbefore x); [now left|].
           assumption.
    + rewrite IH. split.
      * intros (before & after & -> & Hid & Hbefore).
        exists (x :: before), after. repeat split; [assumption|].
        intros n [<-|Hn]; [assumption | now apply Hbefore].
      * intros (before & after & Heq & Hid & Hbefore).
        destruct before as [|y before]; simpl in Heq.
        -- injection Heq as -> _. contradiction.
        -- injection Heq as <- ->. exists before, after.
           repeat split; [assumption|].
           intros n Hn. apply Hbefore. now right.
Qed.

Lemma select_scan_In (nodes : list TargetNode) (id : string)
    (node : TargetNode) :
  select_scan nodes id = Some node -> In node nodes /\ node_id node = id.
Proof.
  rewrite select_scan_first. intros (before & after & -> & Hid & _).
  split; [|assumption]. apply in_or_app. right. now left.
Qed.

Lemma select_scan_None (nodes : list TargetNode) (id : string) :
  select_scan nodes id = None <-> forall n, In n nodes -> node_id n <> id.
Proof.
  induction nodes as [|x rest IH]; simpl.
  - split; [intros _ n [] | reflexivity].
  - destruct (String.eqb_spec (node_id x) id) as [Hx|Hx].
    + split; [discriminate|]. intros H. exfalso. now apply (H x); [left|].
    + rewrite IH. split.
      * intros H n [<-|Hn]; [assumption | now apply H].
      * intros H n Hn. apply H. now right.
Qed.

(** Where ids are unique the first match is the only one. *)
Lemma select_scan_unique (nodes : list TargetNode) (id : string)
    (node : TargetNode) :
  NoDup (map node_id nodes) ->
  In node nodes -> node_id node = id -> select_scan nodes id = Some node.
Proof.
  induction nodes as [|x rest IH]; simpl; [contradiction|].
  intros Hnd Hin Hid. inversion Hnd as [|? ? Hnotin Hnd']; subst.
  destruct Hin as [->|Hin].
  - now rewrite String.eqb_refl.
  - destruct (String.eqb_spec (node_id x) (node_id node)) as [Hx|Hx].
    + exfalso. apply Hnotin. rewrite Hx. now apply in_map.
    + now apply IH.
Qed.

(** What [select_target_node] computes when no hook is installed. *)
Lemma select_target_node_unhooked (m : MockOffloadManager) (id : string) :
  select_node_hook_ m = None ->
  retval (select_target_node id m) =
    match select_scan (available_nodes_ m) id with
    | Some node => can_accept_offload node
    | None => false
    end /\
  current_target_ (post (select_target_node id m)) =
    match select_scan (available_nodes_ m) id with
    | Some node =>
        if can_accept_offload node then Some node else current_target_ m
    | None => current_target_ m
    end /\
  status_ (post (select_target_node id m)) = status_ m.
Proof.
  intros Hhook. unfold select_target_node.
  destruct_manager m. cbn in Hhook. subst.
  cbn [available_nodes_ current_target_ status_].
  match goal with
  | |- context [select_scan ?ns id] =>
      destruct (select_scan ns id) as [node|] eqn:Hscan
  end.
  - destruct (can_accept_offload node) eqn:Hacc.
    + munfold. cbn. rewrite Hscan. cbn. rewrite Hacc. cbn. repeat split.
    + munfold. cbn. rewrite Hscan. cbn. rewrite Hacc.
      destruct ecb; cbn; repeat split.
  - munfold. cbn. rewrite Hscan. destruct ecb; cbn; repeat split.
Qed.

(** With a hook installed the hook answers and nothing is changed. *)
Lemma select_target_node_hooked (m : MockOffloadManager) (id : string)
    (hook : string -> bool) :
  select_node_hook_ m = Some hook ->
  retval (select_target_node id m) = hook id /\
  post (select_target_node id m) = m.
Proof.
  intros Hhook. unfold select_target_node.
  destruct_manager m. cbn in Hhook. subst. munfold. cbn. split; reflexivity.
Qed.

(** C4, as amended: a failed [select_target_node] leaves the selection as
    it was, hook or no hook.  When no select hook is installed the call
    returns [true] exactly when the first node listed under the id passes
    [can_accept_offload], and that node becomes the target; where ids are
    unique this is: some listed node has the id and passes
    [can_accept_offload]. *)
Theorem select_target_node_guard (m : MockOffloadManager) (id : string) :
  (retval (select_target_node id m) = false ->
   current_target_ (post (select_target_node id m)) = current_target_ m) /\
  (select_node_hook_ m = None ->
   (retval (select_target_node id m) = true <->
    exists node,
      select_scan (available_nodes_ m) id = Some node /\
      can_accept_offload node = true) /\
   (forall node,
      select_scan (available_nodes_ m) id = Some node ->
      can_accept_offload node = true ->
      current_target_ (post (select_target_node id m)) = Some node) /\
   (NoDup (map node_id (available_nodes_ m)) ->
    (retval (select_target_node id m) = true <->
     exists node,
       In node (available_nodes_ m) /\ node_id node = id /\
       can_accept_offload node = true))).
Proof.
  split.
  - destruct (select_node_hook_ m) as [hook|] eqn:Hhook.
    + destruct (select_target_node_hooked m id hook Hhook) as [_ ->].
      reflexivity.
    + destruct (select_target_node_unhooked m id Hhook) as (-> & -> & _).
      destruct (select_scan (available_nodes_ m) id) as [node|];
        [|reflexivity].
      intros ->. reflexivity.
  - intros Hhook.
    destruct (select_target_node_unhooked m id Hhook) as (-> & -> & _).
    assert (Hfirst :
      match select_scan (available_nodes_ m) id with
      | Some node => can_accept_offload node
      | None => false
      end = true <->
      exists node,
        select_scan (available_nodes_ m) id = Some node /\
        can_accept_offload node = true).
    { destruct (select_scan (available_nodes_ m) id) as [node|].
      - split; [intros H; now exists node|].
        intros (node' & [= <-] & H). exact H.
      - split; [discriminate|]. intros (node' & [=] & _). }
    split; [exact Hfirst|]. split.
    + intros node -> ->. reflexivity.
    + intros Hnd. rewrite Hfirst. split.
      * intros (node & Hscan & Hacc).
        destruct (select_scan_In _ _ _ Hscan) as [Hin Hid].
        now exists node.
      * intros (node & Hin & Hid & Hacc). exists node.
        split; [|exact Hacc]. now apply select_scan_unique.
Qed.

(** The guard at a constructed manager, for [node2]. *)
Lemma select_target_node_guard_witness :
  select_node_hook_ fresh_manager = None /\
  (retval (select_target_node "node2" fresh_manager) = true <->
   exists node,
     select_scan (available_nodes_ fresh_manager) "node2" = Some node /\
     can_accept_offload node = true).
Proof.
  split; [reflexivity|].
  apply (proj2 (select_target_node_guard fresh_manager "node2") eq_refl).
Defined.

(** C4, as stated, fails in two ways.  With a select hook installed the
    hook's answer is returned: an id no node carries is accepted, and no
    node becomes the target.  With one id listed twice the first entry
    decides: the call is rejected although a later node with that id passes
    [can_accept_offload]. *)
Lemma select_target_node_counterexample :
  (retval (select_target_node "nonexistent" select_hooked) = true /\
   select_scan (available_nodes_ select_hooked) "nonexistent" = None /\
   current_target_ (post (select_target_node "nonexistent" select_hooked))
     = None) /\
  (retval (select_target_node "dup" dup_manager) = false /\
   In dup_good (available_nodes_ dup_manager) /\
   node_id dup_good = "dup" /\
   can_accept_offload dup_good = true).
Proof.
  repeat split. right. left. reflexivity.
Qed.

(** ** Cancelling *)

(** C5, as amended: when no cancel hook is installed, [cancel_offload]
    returns [true] exactly when [is_active()] holds, that is from
    [Preparing], [Transferring], [Completing] and [Paused]; it then leaves
    the status [Cancelled], the progress record untouched, and a last result
    with [success == false] whose final progress is that record; a rejected
    cancel leaves the manager, hence its status, as it was. *)
Theorem cancel_offload_guard (m : MockOffloadManager) (now : time_point) :
  cancel_hook_ m = None ->
  (retval (cancel_offload now m) = true <-> retval (is_active m) = true) /\
  (retval (cancel_offload now m) = true <->
   status_ m = Preparing \/ status_ m = Transferring \/
   status_ m = Completing \/ status_ m = Paused) /\
  (retval (cancel_offload now m) = false ->
   post (cancel_offload now m) = m) /\
  (retval (cancel_offload now m) = true ->
   status_ (post (cancel_offload now m)) = Cancelled /\
   progress_ (post (cancel_offload now m)) = progress_ m /\
   exists r,
     last_result_ (post (cancel_offload now m)) = Some r /\
     success r = false /\
     final_progress r = progress_ m /\
     transferred_bytes (final_progress r) = transferred_bytes (progress_ m)).
Proof.
  intros Hhook. unfold cancel_offload, is_active, notify_complete.
  destruct_manager m. cbn in Hhook. subst.
  destruct st, ecb, scb, ccb; mstep;
    repeat split; intros; try discriminate; try tauto;
    try (repeat match goal with H : _ \/ _ |- _ => destruct H end;
         discriminate);
    eexists; repeat split.
Qed.

(** The guard at a manager with a running operation. *)
Lemma cancel_offload_guard_witness :
  cancel_hook_ node1_started = None /\
  status_ (post (cancel_offload 20 node1_started)) = Cancelled.
Proof.
  split; [reflexivity|].
  apply (cancel_offload_guard node1_started 20 eq_refl).
  reflexivity.
Defined.

(** C5, as stated, fails where a cancel hook is installed: the hook's
    answer is returned although no operation is active, the status is not
    [Cancelled] and no result is recorded.  Besides, the statuses from which
    a cancel is accepted are not those the transition table lists: [Idle] is
    rejected and [Completing] accepted. *)
Lemma cancel_offload_hook_counterexample :
  (retval (is_active cancel_hooked) = false /\
   retval (cancel_offload 20 cancel_hooked) = true /\
   status_ (post (cancel_offload 20 cancel_hooked)) = Idle /\
   last_result_ (post (cancel_offload 20 cancel_hooked)) = None) /\
  (status_ node1_completing = Completing /\
   retval (cancel_offload 20 node1_completing) = true) /\
  (status_ node1_selected = Idle /\
   retval (cancel_offload 20 node1_selected) = false).
Proof. repeat split. Qed.

(** ** The target of a running operation *)

(** C9, as amended: in every status, so also while an operation is active,
    [select_target_node] with no select hook installed accepts the id of a
    node that is the first listed under that id and passes
    [can_accept_offload], and makes it the target; [clear_target_selection]
    drops the target; neither touches the status.  The result recorded by
    [simulate_complete], [simulate_error] and an accepted [cancel_offload]
    carries the target selected at that moment (a default-constructed node
    when none is), whatever was selected at the start. *)
Theorem target_follows_selection (m : MockOffloadManager) :
  (forall id node,
     select_node_hook_ m = None ->
     select_scan (available_nodes_ m) id = Some node ->
     can_accept_offload node = true ->
     retval (select_target_node id m) = true /\
     current_target_ (post (select_target_node id m)) = Some node /\
     status_ (post (select_target_node id m)) = status_ m) /\
  (current_target_ (post (clear_target_selection m)) = None /\
   status_ (post (clear_target_selection m)) = status_ m) /\
  (forall success now,
     exists r,
       last_result_ (post (simulate_complete success now m)) = Some r /\
       target_node r = target_at_completion m) /\
  (forall error now,
     exists r,
       last_result_ (post (simulate_error error now m)) = Some r /\
       target_node r = target_at_completion m) /\
  (forall now,
     cancel_hook_ m = None ->
     retval (cancel_offload now m) = true ->
     exists r,
       last_result_ (post (cancel_offload now m)) = Some r /\
       target_node r = target_at_completion m).
Proof.
  split; [|split; [|split; [|split]]].
  - intros id node Hhook Hscan Hacc.
    unfold select_target_node. destruct_manager m. cbn in Hhook, Hscan.
    subst. cbv [bind gets retval post events available_nodes_
                select_node_hook_].
    rewrite Hscan, Hacc. mstep. repeat split.
  - destruct_manager m. repeat split.
  - intros success now. unfold simulate_complete, notify_complete,
      target_at_completion.
    destruct_manager m. destruct success, scb, ccb, st; mstep;
      eexists; repeat split.
  - intros error now. unfold simulate_error, notify_complete,
      target_at_completion.
    destruct_manager m. destruct ecb, scb, ccb, st; mstep;
      eexists; repeat split.
  - intros now Hhook. unfold cancel_offload, notify_complete,
      target_at_completion.
    destruct_manager m. cbn in Hhook. subst.
    destruct ecb, scb, ccb, st; mstep; intros H; try discriminate H;
      eexists; repeat split.
Qed.

(** Re-selection while [Transferring]: the target moves from [node1] to
    [node2]. *)
Lemma target_follows_selection_witness :
  select_node_hook_ node1_started = None /\
  status_ node1_started = Transferring /\
  option_map node_id (current_target_ node1_started) = Some "node1" /\
  option_map node_id
    (current_target_ (post (select_target_node "node2" node1_started)))
    = Some "node2".
Proof.
  split; [reflexivity|]. split; [reflexivity|]. split; [reflexivity|].
  destruct (proj1 (target_follows_selection node1_started) "node2"
              (create_mock_node "node2" "192.168.1.11"
                 (200 * 1024 * 1024 * 1024) 30%float 40%float 2)
              eq_refl eq_refl eq_refl) as (_ & Htarget & _).
  rewrite Htarget. reflexivity.
Defined.

(** C9, as stated, fails while an operation is active in two ways: with a
    select hook installed the hook's answer is returned and the target is
    not replaced, although the node exists and passes [can_accept_offload];
    with one id listed twice the first entry decides, and the call is
    rejected although a later node with that id passes
    [can_accept_offload]. *)
Lemma target_follows_selection_counterexample :
  (retval (is_active started_select_hooked) = true /\
   (exists node,
      select_scan (available_nodes_ started_select_hooked) "node2"
        = Some node /\
      can_accept_offload node = true) /\
   retval (select_target_node "node2" started_select_hooked) = false /\
   option_map node_id
     (current_target_
        (post (select_target_node "node2" started_select_hooked)))
     = Some "node1") /\
  (retval (is_active started_dup) = true /\
   In dup_good (available_nodes_ started_dup) /\
   can_accept_offload dup_good = true /\
   retval (select_target_node "dup" started_dup) = false).
Proof.
  split; [split; [reflexivity | split; [|split; reflexivity]]|].
  - eexists. split; reflexivity.
  - repeat split. right. left. reflexivity.
Qed.

(** ** Status-change notification *)

(** A trace with synchronous exactly-once dispatch shows the callback the
    transitions, all of them and in order.  [dispatch_ok] looks two events
    ahead, so the induction carries the statement for the list and for the
    list with one more event in front. *)
Lemma dispatch_ok_callbacks_aux (tr : list Event) :
  (dispatch_ok tr = true ->
   status_callbacks tr = transitions (status_writes tr)) /\
  (forall e, dispatch_ok (e :: tr) = true ->
   status_callbacks (e :: tr) = transitions (status_writes (e :: tr))).
Proof.
  induction tr as [|e' tr [IH1 IH2]].
  - split; [reflexivity|].
    intros [| | |a b|a b]; simpl; try reflexivity; try discriminate.
    unfold transitions. simpl.
    destruct (status_eqb a b); [reflexivity | discriminate].
  - split; [apply IH2|].
    intros [| | |a b|a b] H; try (apply IH2; exact H); try discriminate H.
    change (dispatch_ok (StatusAssigned a b :: e' :: tr))
      with (if status_eqb a b then dispatch_ok (e' :: tr)
            else match e' with
                 | StatusChangeEvent a' b' =>
                     status_eqb a a' && status_eqb b b' && dispatch_ok tr
                 | _ => false
                 end) in H.
    change (status_callbacks (StatusAssigned a b :: e' :: tr))
      with (status_callbacks (e' :: tr)).
    change (status_writes (StatusAssigned a b :: e' :: tr))
      with ((a, b) :: status_writes (e' :: tr)).
    unfold transitions. cbn [filter fst snd].
    destruct (status_eqb a b) eqn:Hab; cbn [negb].
    + apply IH2. exact H.
    + destruct e' as [| | |a' b'|a' b']; try discriminate H.
      apply andb_prop in H as [H Htr]. apply andb_prop in H as [Ha Hb].
      apply status_eqb_eq in Ha, Hb. subst a' b'.
      cbn [status_callbacks status_writes]. f_equal. apply IH1. exact Htr.
Qed.

Lemma dispatch_ok_callbacks (tr : list Event) :
  dispatch_ok tr = true ->
  status_callbacks tr = transitions (status_writes tr).
Proof. apply dispatch_ok_callbacks_aux. Qed.

(** Decides the tests an operation branches on, one after the other. *)
Ltac crunch :=
  repeat (mstep;
          match goal with
          | |- context [match ?x with _ => _ end] =>
              lazymatch x with
              | context [match _ with _ => _ end] => fail
              | _ => destruct x eqn:?
              end
          end);
  mstep.

Ltac unfold_ops :=
  cbv [exec set_config refresh_nodes select_target_node
       auto_select_target_node clear_target_selection start_offload
       cancel_offload pause_offload resume_offload on_progress on_complete
       on_error on_status_change set_start_hook set_cancel_hook
       set_nodes_hook set_select_node_hook force_status simulate_progress
       simulate_complete simulate_error set_available_nodes add_node
       remove_node clear_nodes set_node_health reset notify_complete
       notify_progress].

Lemma exec_dispatch_ok (m : MockOffloadManager) (op : Op) :
  status_change_callback_ m = true ->
  is_reset op = false ->
  dispatch_ok (events (exec op m)) = true.
Proof.
  intros Hsub Hop. destruct_manager m. cbn in Hsub. subst.
  destruct op; try discriminate Hop; clear Hop; unfold_ops;
    destruct st; crunch; reflexivity.
Qed.

(** The recorded assignments account for the whole change of [status_]
    across an operation, [reset] included. *)
Lemma exec_writes_chain (m : MockOffloadManager) (op : Op) :
  writes_chain (status_ m) (status_writes (events (exec op m)))
    (status_ (post (exec op m))) = true.
Proof.
  destruct_manager m.
  destruct op; unfold_ops; destruct st; crunch; reflexivity.
Qed.

Lemma simulate_complete_writes (m : MockOffloadManager) (now : time_point) :
  status_writes (events (simulate_complete true now m)) =
    [(status_ m, Completing); (Completing, Completed)].
Proof.
  destruct_manager m. unfold simulate_complete, notify_complete.
  destruct st, scb, ccb; reflexivity.
Qed.

(** C7, as amended: for every operation other than [reset], run on a
    manager with a status-change subscriber, each assignment that changes
    [status_] is followed at once by exactly one invocation of the callback
    carrying (previous, next), and the callback is invoked at no other
    point; so the invocations are the transitions, in order.  The
    assignments lead from the status before the operation to the status
    after it without a gap.  A successful completion assigns [Completing]
    and then [Completed]; an accepted start (no start hook) is reported as
    the pair of transitions into [Preparing] and into [Transferring]. *)
Theorem status_change_dispatch (m : MockOffloadManager) (op : Op) :
  status_change_callback_ m = true ->
  is_reset op = false ->
  dispatch_ok (events (exec op m)) = true /\
  status_callbacks (events (exec op m)) =
    transitions (status_writes (events (exec op m))) /\
  writes_chain (status_ m) (status_writes (events (exec op m)))
    (status_ (post (exec op m))) = true /\
  (forall now,
     status_callbacks (events (simulate_complete true now m)) =
       transitions [(status_ m, Completing); (Completing, Completed)]) /\
  (forall data_ids now,
     start_hook_ m = None ->
     retval (start_offload data_ids now m) = true ->
     status_callbacks (events (start_offload data_ids now m)) =
       [(status_ m, Preparing); (Preparing, Transferring)]).
Proof.
  intros Hsub Hop.
  pose proof (exec_dispatch_ok m op Hsub Hop) as Hok.
  split; [exact Hok|].
  split; [now apply dispatch_ok_callbacks|].
  split; [apply exec_writes_chain|].
  split.
  - intros now. rewrite <- simulate_complete_writes with (now := now).
    apply dispatch_ok_callbacks.
    apply (exec_dispatch_ok m (OpSimulateComplete true now) Hsub eq_refl).
  - intros data_ids now Hhook. unfold start_offload.
    destruct_manager m. cbn in Hsub, Hhook. subst.
    match goal with
    | |- context [mkManager _ _ _ ?t] => destruct t as [tgt|]
    end;
      destruct st, ecb; mstep; intros H; try discriminate H; reflexivity.
Qed.

(** The two invocations of a successful completion. *)
Lemma status_change_dispatch_witness :
  status_change_callback_ node1_started_subscribed = true /\
  is_reset (OpSimulateComplete true 30) = false /\
  status_callbacks
    (events (exec (OpSimulateComplete true 30) node1_started_subscribed)) =
  [(Transferring, Completing); (Completing, Completed)].
Proof.
  split; [reflexivity|]. split; [reflexivity|].
  destruct (status_change_dispatch node1_started_subscribed
              (OpSimulateComplete true 30) eq_refl eq_refl)
    as (_ & Hcallbacks & _).
  rewrite Hcallbacks. reflexivity.
Defined.

(** C7, as stated, fails for [reset]: it assigns [Idle] over
    [Transferring] and the subscribed callback is not invoked. *)
Lemma reset_silent_counterexample :
  status_change_callback_ node1_started_subscribed = true /\
  status_ node1_started_subscribed = Transferring /\
  status_ (post (reset 40 41 42 node1_started_subscribed)) = Idle /\
  status_writes (events (reset 40 41 42 node1_started_subscribed)) =
    [(Transferring, Idle)] /\
  status_callbacks (events (reset 40 41 42 node1_started_subscribed)) = [] /\
  dispatch_ok (events (reset 40 41 42 node1_started_subscribed)) = false /\
  status_change_callback_
    (post (reset 40 41 42 node1_started_subscribed)) = true.
Proof. repeat split. Qed.

(** ** Progress counters *)

Lemma wrap64_range (z : Z) : is_size_t (wrap64 z).
Proof.
  unfold is_size_t, wrap64, size_t_max.
  pose proof (Z.mod_pos_bound z (2 ^ 64) ltac:(lia)). lia.
Qed.

Lemma wrap64_small (z : Z) : is_size_t z -> wrap64 z = z.
Proof.
  unfold is_size_t, wrap64, size_t_max. intros H.
  apply Z.mod_small. lia.
Qed.


(** The counter updates of [simulate_progress]. *)
Lemma simulate_progress_counters (m : MockOffloadManager)
    (bytes : Z) (now1 now2 : time_point) :
  transferred_bytes (progress_ (post (simulate_progress bytes now1 now2 m)))
    = wrap64 (transferred_bytes (progress_ m) + bytes) /\
  pending_bytes (progress_ (post (simulate_progress bytes now1 now2 m)))
    = wrap64 (total_bytes (progress_ m)
              - wrap64 (transferred_bytes (progress_ m) + bytes)) /\
  segments_completed (progress_ (post (simulate_progress bytes now1 now2 m)))
    = wrap64 (segments_completed (progress_ m) + 1) /\
  segments_pending (progress_ (post (simulate_progress bytes now1 now2 m)))
    = wrap64 (segments_total (progress_ m)
              - wrap64 (segments_completed (progress_ m) + 1)) /\
  total_bytes (progress_ (post (simulate_progress bytes now1 now2 m)))
    = total_bytes (progress_ m) /\
  segments_total (progress_ (post (simulate_progress bytes now1 now2 m)))
    = segments_total (progress_ m) /\
  segments_failed (progress_ (post (simulate_progress bytes now1 now2 m)))
    = segments_failed (progress_ m).
Proof.
  destruct_manager m. unfold simulate_progress, notify_progress.
  match goal with
  | |- context [mkManager _ _ ?p] => destruct p
  end.
  munfold.
  cbn [progress_ start_time transferred_bytes total_bytes segments_total
       segments_completed PUpd.set_transferred_bytes PUpd.set_pending_bytes
       PUpd.set_segments_completed PUpd.set_segments_pending].
  repeat match goal with
  | |- context [if ?b then _ else _] => destruct b
  end; cbn; repeat split.
Qed.








(** C10: [simulate_progress] adds to the counters modulo 2^64 and
    recomputes the pending counters as wrapped differences, with no clamp
    on any of them; after a start, reporting 2 MiB 101 times leaves
    [pending_bytes] and [segments_pending] just below 2^64 and a
    [progress_percent] above 100. *)
Theorem simulate_progress_wraps :
  (forall (m : MockOffloadManager) (bytes : Z) (now1 now2 : time_point),
     transferred_bytes
       (progress_ (post (simulate_progress bytes now1 now2 m)))
       = wrap64 (transferred_bytes (progress_ m) + bytes) /\
     pending_bytes (progress_ (post (simulate_progress bytes now1 now2 m)))
       = wrap64 (total_bytes (progress_ m)
                 - wrap64 (transferred_bytes (progress_ m) + bytes)) /\
     segments_completed
       (progress_ (post (simulate_progress bytes now1 now2 m)))
       = wrap64 (segments_completed (progress_ m) + 1) /\
     segments_pending
       (progress_ (post (simulate_progress bytes now1 now2 m)))
       = wrap64 (segments_total (progress_ m)
                 - wrap64 (segments_completed (progress_ m) + 1))) /\
  (let p := progress_ (post (run segment_overshoot_script fresh_manager)) in
   total_bytes p = 100 * 1024 * 1024 /\
   transferred_bytes p = 202 * 1024 * 1024 /\
   pending_bytes p = 2 ^ 64 - 102 * 1024 * 1024 /\
   segments_total p = 100 /\
   segments_completed p = 101 /\
   segments_pending p = 2 ^ 64 - 1 /\
   PrimFloat.ltb 100%float (progress_percent p) = true /\
   progress_percent p = 202%float).
Proof.
  split.
  - intros m bytes now1 now2.
    destruct (simulate_progress_counters m bytes now1 now2)
      as (Ht & Hp & Hc & Hsp & _).
    now rewrite Ht, Hp, Hc, Hsp.
  - cbv zeta. repeat split; vm_compute; reflexivity.
Qed.

(** ** Automatic selection *)

(** With a candidate in hand the scan ends with a candidate: the one in
    hand if no later admissible node has strictly more storage, else the
    first node to reach the largest storage among the admissible ones. *)
Lemma best_scan_from (nodes : list TargetNode) :
  forall b : TargetNode,
  exists r,
    best_scan nodes (Some b) = Some r /\
    ((r = b /\
      forall n, In n nodes -> can_accept_offload n = true ->
                available_storage_bytes n <= available_storage_bytes b) \/
     (exists before after,
        nodes = before ++ r :: after /\
        can_accept_offload r = true /\
        available_storage_bytes b < available_storage_bytes r /\
        (forall n, In n before -> can_accept_offload n = true ->
                   available_storage_bytes n < available_storage_bytes r) /\
        (forall n, In n after -> can_accept_offload n = true ->
                   available_storage_bytes n <= available_storage_bytes r))).
Proof.
  induction nodes as [|x rest IH]; intros b.
  - exists b. split; [reflexivity|]. left. split; [reflexivity|].
    intros n [].
  - cbn [best_scan].
    destruct (can_accept_offload x) eqn:Hx.
    + destruct (Z.ltb_spec (available_storage_bytes b)
                  (available_storage_bytes x)) as [Hlt|Hge].
      * destruct (IH x) as (r & Hr & [[-> Hall] | Hlater]).
        -- exists x. split; [exact Hr|]. right. exists [], rest.
           repeat split; try assumption. intros n [].
        -- destruct Hlater as (before & after & -> & Hacc & Hxr & Hb & Ha).
           exists r. split; [exact Hr|]. right.
           exists (x :: before), after. repeat split; try assumption.
           ++ lia.
           ++ intros n [<-|Hn] Hn'; [lia | now apply Hb].
      * destruct (IH b) as (r & Hr & [[-> Hall] | Hlater]).
        -- exists b. split; [exact Hr|]. left. split; [reflexivity|].
           intros n [<-|Hn] Hn'; [lia | now apply Hall].
        -- destruct Hlater as (before & after & -> & Hacc & Hbr & Hb & Ha).
           exists r. split; [exact Hr|]. right.
           exists (x :: before), after. repeat split; try assumption.
           intros n [<-|Hn] Hn'; [lia | now apply Hb].
    + destruct (IH b) as (r & Hr & [[-> Hall] | Hlater]).
      * exists b. split; [exact Hr|]. left. split; [reflexivity|].
        intros n [<-|Hn] Hn'; [congruence | now apply Hall].
      * destruct Hlater as (before & after & -> & Hacc & Hbr & Hb & Ha).
        exists r. split; [exact Hr|]. right.
        exists (x :: before), after. repeat split; try assumption.
        intros n [<-|Hn] Hn'; [congruence | now apply Hb].
Qed.

(** The scan of [auto_select_target_node]: nothing when no node is
    admissible, else the first node to reach the largest storage among the
    admissible ones. *)
Lemma best_scan_spec (nodes : list TargetNode) :
  (best_scan nodes None = None /\
   forall n, In n nodes -> can_accept_offload n = false) \/
  (exists best before after,
     best_scan nodes None = Some best /\
     nodes = before ++ best :: after /\
     can_accept_offload best = true /\
     (forall n, In n before -> can_accept_offload n = true ->
                available_storage_bytes n < available_storage_bytes best) /\
     (forall n, In n after -> can_accept_offload n = true ->
                available_storage_bytes n <= available_storage_bytes best)).
Proof.
  induction nodes as [|x rest IH].
  - left. split; [reflexivity|]. intros n [].
  - cbn [best_scan]. destruct (can_accept_offload x) eqn:Hx.
    + right. destruct (best_scan_from rest x) as (r & Hr & [[-> Hall]|H]).
      * exists x, [], rest. repeat split; try assumption. intros n [].
      * destruct H as (before & after & -> & Hacc & Hxr & Hb & Ha).
        exists r, (x :: before), after. repeat split; try assumption.
        intros n [<-|Hn] Hn'; [lia | now apply Hb].
    + destruct IH as [[Hnone Hall] | H].
      * left. split; [exact Hnone|].
        intros n [<-|Hn]; [exact Hx | now apply Hall].
      * right. destruct H as (r & before & after & Hr & -> & Hacc & Hb & Ha).
        exists r, (x :: before), after. repeat split; try assumption.
        intros n [<-|Hn] Hn'; [congruence | now apply Hb].
Qed.

(** What [auto_select_target_node] computes. *)
Lemma auto_select_unfold (m : MockOffloadManager) :
  retval (auto_select_target_node m) =
    match best_scan (available_nodes_ m) None with
    | Some _ => true
    | None => false
    end /\
  current_target_ (post (auto_select_target_node m)) =
    match best_scan (available_nodes_ m) None with
    | Some best => Some best
    | None => current_target_ m
    end.
Proof.
  unfold auto_select_target_node. destruct_manager m.
  cbn [available_nodes_ current_target_]. munfold.
  cbn [available_nodes_].
  match goal with
  | |- context [best_scan ?ns None] => destruct (best_scan ns None)
  end; destruct ecb; cbn; split; reflexivity.
Qed.

(** C2, as amended: [auto_select_target_node] considers the nodes that pass
    [can_accept_offload] and nothing else about them; it returns [true]
    exactly when there is one, and then selects the one with the largest
    [available_storage_bytes], the earliest in the node list among equals;
    when there is none it returns [false] and leaves the selection as it
    was. *)
Theorem auto_select_first_largest (m : MockOffloadManager) :
  (retval (auto_select_target_node m) = true <->
   exists n, In n (available_nodes_ m) /\ can_accept_offload n = true) /\
  (if retval (auto_select_target_node m) then
     exists best before after,
       current_target_ (post (auto_select_target_node m)) = Some best /\
       available_nodes_ m = before ++ best :: after /\
       can_accept_offload best = true /\
       (forall n, In n before -> can_accept_offload n = true ->
          available_storage_bytes n < available_storage_bytes best) /\
       (forall n, In n after -> can_accept_offload n = true ->
          available_storage_bytes n <= available_storage_bytes best)
   else
     current_target_ (post (auto_select_target_node m))
       = current_target_ m).
Proof.
  destruct (auto_select_unfold m) as [-> ->].
  destruct (best_scan_spec (available_nodes_ m))
    as [[-> Hall] | (best & before & after & -> & Hnodes & Hacc & Hb & Ha)].
  - split; [|reflexivity]. split; [discriminate|].
    intros (n & Hin & Hn). rewrite (Hall n Hin) in Hn. discriminate.
  - split.
    + split; [intros _ | reflexivity]. exists best. split; [|exact Hacc].
      rewrite Hnodes. apply in_or_app. right. now left.
    + exists best, before, after. repeat split; assumption.
Qed.

(** C2, as stated, fails, under the default configuration that
    [set_available_nodes] leaves in place: a node below
    [min_available_storage_bytes], or above [max_target_cpu_usage], is
    selected although the specification's filter rejects it; between two
    admissible nodes equal in region and storage the one listed first is
    selected, be it the one with more active offloads or with the later
    id, where the specification's ranking puts the other first. *)
Lemma auto_select_counterexample :
  (config_ (with_nodes [tiny_node]) = default_OffloadConfig /\
   available_storage_bytes tiny_node
     < min_available_storage_bytes default_OffloadConfig /\
   spec_admissible default_OffloadConfig tiny_node = false /\
   spec_auto_select default_OffloadConfig "us-east-1" [tiny_node] = None /\
   retval (auto_select_target_node (with_nodes [tiny_node])) = true /\
   current_target_ (post (auto_select_target_node (with_nodes [tiny_node])))
     = Some tiny_node) /\
  (PrimFloat.ltb (max_target_cpu_usage default_OffloadConfig)
     (cpu_usage_percent hot_node) = true /\
   spec_admissible default_OffloadConfig hot_node = false /\
   spec_auto_select default_OffloadConfig "us-east-1" [hot_node] = None /\
   retval (auto_select_target_node (with_nodes [hot_node])) = true /\
   current_target_ (post (auto_select_target_node (with_nodes [hot_node])))
     = Some hot_node) /\
  (spec_admissible default_OffloadConfig busy_node = true /\
   spec_admissible default_OffloadConfig idle_node = true /\
   region busy_node = region idle_node /\
   available_storage_bytes busy_node = available_storage_bytes idle_node /\
   active_offload_count idle_node < active_offload_count busy_node /\
   spec_auto_select default_OffloadConfig "us-east-1"
     [busy_node; idle_node] = Some idle_node /\
   current_target_
     (post (auto_select_target_node (with_nodes [busy_node; idle_node])))
     = Some busy_node) /\
  (spec_admissible default_OffloadConfig zeta_node = true /\
   spec_admissible default_OffloadConfig alpha_node = true /\
   region zeta_node = region alpha_node /\
   available_storage_bytes zeta_node = available_storage_bytes alpha_node /\
   active_offload_count zeta_node = active_offload_count alpha_node /\
   String.ltb (node_id alpha_node) (node_id zeta_node) = true /\
   spec_auto_select default_OffloadConfig "us-east-1"
     [zeta_node; alpha_node] = Some alpha_node /\
   current_target_
     (post (auto_select_target_node (with_nodes [zeta_node; alpha_node])))
     = Some zeta_node).
Proof. repeat split; vm_compute; reflexivity. Qed.

(** ** Segment accounting at start *)

(** The segment sizes for which 100 MiB make 100 segments. *)
Lemma hundred_segments (seg : Z) :
  0 < seg ->
  (ceil_div (100 * 1024 * 1024) seg = 100 <-> 1048576 <= seg <= 1059167).
Proof.
  intros Hseg. unfold ceil_div. split.
  - intros H.
    pose proof (Z.mul_div_le (100 * 1024 * 1024 + seg - 1) seg Hseg) as Hle.
    pose proof (Z.mul_succ_div_gt (100 * 1024 * 1024 + seg - 1) seg Hseg)
      as Hgt.
    rewrite H in Hle, Hgt. lia.
  - intros H. symmetry.
    apply Z.div_unique with (r := 100 * 1024 * 1024 + seg - 1 - seg * 100);
      lia.
Qed.

(** The progress record an accepted start leaves. *)
Lemma start_offload_progress (m : MockOffloadManager)
    (data_ids : list string) (now : time_point) :
  start_hook_ m = None ->
  retval (start_offload data_ids now m) = true ->
  progress_ (post (start_offload data_ids now m)) = {|
    total_bytes := 100 * 1024 * 1024;
    transferred_bytes := 0;
    pending_bytes := 100 * 1024 * 1024;
    segments_total := 100;
    segments_completed := 0;
    segments_failed := 0;
    segments_pending := 100;
    start_time := now;
    last_update := epoch;
    elapsed := 0;
    bytes_per_second := 0%float;
    average_bytes_per_second := 0%float;
    error_message := None;
    current_segment_id := None
  |} /\
  config_ (post (start_offload data_ids now m)) = config_ m.
Proof.
  intros Hhook. unfold start_offload.
  destruct_manager m. cbn in Hhook. subst.
  match goal with
  | |- context [mkManager _ _ _ ?t] => destruct t as [tgt|]
  end;
    destruct st, ecb, scb; mstep; intros H; try discriminate H;
    split; reflexivity.
Qed.

(** C3, as amended: an accepted [start_offload] (no start hook) sets
    [total_bytes] to 100 MiB and [segments_total] to 100, with everything
    pending and nothing transferred, whatever the configuration, a
    [segment_size] of zero included, and leaves the configuration
    untouched.  So for a positive configured [segment_size],
    [segments_total] is ceil(total_bytes / segment_size) exactly when
    [segment_size] lies between 1048576 and 1059167, the default 1 MiB
    included; and exactly for these sizes would the last of
    [segments_total] segments, the others being full, hold a remainder of
    at least one byte and at most [segment_size] bytes.  No segment is
    created: the record holds counters only. *)
Theorem start_offload_segments (m : MockOffloadManager)
    (data_ids : list string) (now : time_point) :
  start_hook_ m = None ->
  retval (start_offload data_ids now m) = true ->
  total_bytes (progress_ (post (start_offload data_ids now m)))
    = 100 * 1024 * 1024 /\
  segments_total (progress_ (post (start_offload data_ids now m))) = 100 /\
  pending_bytes (progress_ (post (start_offload data_ids now m)))
    = 100 * 1024 * 1024 /\
  segments_pending (progress_ (post (start_offload data_ids now m))) = 100 /\
  transferred_bytes (progress_ (post (start_offload data_ids now m))) = 0 /\
  segments_completed (progress_ (post (start_offload data_ids now m))) = 0 /\
  segments_failed (progress_ (post (start_offload data_ids now m))) = 0 /\
  config_ (post (start_offload data_ids now m)) = config_ m /\
  (0 < segment_size (config_ m) ->
   (segments_total (progress_ (post (start_offload data_ids now m)))
      = ceil_div
          (total_bytes (progress_ (post (start_offload data_ids now m))))
          (segment_size (config_ (post (start_offload data_ids now m)))) <->
    1048576 <= segment_size (config_ m) <= 1059167) /\
   (0 < total_bytes (progress_ (post (start_offload data_ids now m)))
        - (segments_total (progress_ (post (start_offload data_ids now m)))
           - 1) * segment_size (config_ m)
      <= segment_size (config_ m) <->
    1048576 <= segment_size (config_ m) <= 1059167)).
Proof.
  intros Hhook Hok.
  destruct (start_offload_progress m data_ids now Hhook Hok) as [-> ->].
  cbn [total_bytes segments_total pending_bytes segments_pending
       transferred_bytes segments_completed segments_failed].
  repeat (split; [reflexivity|]).
  intros Hseg. pose proof (hundred_segments _ Hseg) as H100. split.
  - rewrite <- H100. split; intros Heq; now symmetry.
  - lia.
Qed.

(** The counters under the default configuration, and under a
    configuration with [segment_size] zero. *)
Lemma start_offload_segments_witness :
  (start_hook_ node1_selected = None /\
   retval (start_offload [] 10 node1_selected) = true /\
   segments_total (progress_ (post (start_offload [] 10 node1_selected)))
     = 100) /\
  (segment_size (config_ (post (set_config zero_segment_config
                                  node1_selected))) = 0 /\
   start_hook_ (post (set_config zero_segment_config node1_selected))
     = None /\
   retval (start_offload [] 10
             (post (set_config zero_segment_config node1_selected)))
     = true /\
   total_bytes
     (progress_
        (post (start_offload [] 10
                 (post (set_config zero_segment_config node1_selected)))))
     = 100 * 1024 * 1024).
Proof.
  split.
  - split; [reflexivity|]. split; [reflexivity|].
    exact (proj1 (proj2 (start_offload_segments node1_selected [] 10
                           eq_refl eq_refl))).
  - split; [reflexivity|]. split; [reflexivity|]. split; [reflexivity|].
    exact (proj1 (start_offload_segments
                    (post (set_config zero_segment_config node1_selected))
                    [] 10 eq_refl eq_refl)).
Defined.

(** C3, as stated, fails for the configuration of the unit test
    [ConfigurationValidation]: with 2 MiB segments the 100 MiB payload makes
    50 segments, and [segments_total] is 100. *)
Lemma start_offload_segments_counterexample :
  let m := post (run test_config_script fresh_manager) in
  status_ m = Transferring /\
  segment_size (config_ m) = 2 * 1024 * 1024 /\
  total_bytes (progress_ m) = 100 * 1024 * 1024 /\
  segments_total (progress_ m) = 100 /\
  ceil_div (total_bytes (progress_ m)) (segment_size (config_ m)) = 50 /\
  segments_total (progress_ m)
    <> ceil_div (total_bytes (progress_ m)) (segment_size (config_ m)).
Proof.
  cbv zeta. repeat split; try reflexivity. vm_compute. discriminate.
Qed.

(** * Further properties of the manager *)

(** ** Reset *)

(** X1: [reset] leaves a constructed manager but for the configuration and
    the four callback slots, which it keeps; so it equals construction
    exactly when the configuration is the default one and nothing is
    subscribed.  It assigns [Idle] once and invokes no callback. *)
Theorem reset_keeps_config_and_callbacks
    (m : MockOffloadManager) (t1 t2 t3 : time_point) :
  post (reset t1 t2 t3 m) = reset_image t1 t2 t3 m /\
  events (reset t1 t2 t3 m) = [StatusAssigned (status_ m) Idle] /\
  (post (reset t1 t2 t3 m) = new_manager t1 t2 t3 <->
   config_ m = default_OffloadConfig /\
   progress_callback_ m = false /\ complete_callback_ m = false /\
   error_callback_ m = false /\ status_change_callback_ m = false).
Proof.
  destruct_manager m. unfold reset, reset_image, new_manager. mstep.
  split; [reflexivity|]. split; [reflexivity|]. split.
  - intros [= -> -> -> -> ->]. repeat split.
  - intros (-> & -> & -> & -> & ->). reflexivity.
Qed.

(** X2: whatever the manager was, after [reset] the id ["node1"] can be
    selected and an operation started on it: [reset] removes the hooks,
    restores the three default nodes and returns to [Idle]. *)
Theorem reset_then_start
    (m : MockOffloadManager) (t1 t2 t3 : time_point)
    (data_ids : list string) (now : time_point) :
  retval (select_target_node "node1" (post (reset t1 t2 t3 m))) = true /\
  retval
    (start_offload data_ids now
       (post (select_target_node "node1" (post (reset t1 t2 t3 m)))))
    = true /\
  status_
    (post
       (start_offload data_ids now
          (post (select_target_node "node1" (post (reset t1 t2 t3 m))))))
    = Transferring.
Proof.
  destruct_manager m.
  unfold reset, select_target_node, start_offload.
  destruct ecb, scb; mstep; repeat split.
Qed.

(** ** Lifecycle *)

(** X3: pausing and resuming a transfer gives back the very manager: the
    progress, the selection and the last result are as before, only two
    status transitions have been reported. *)
Theorem pause_resume_round_trip (m : MockOffloadManager) :
  status_ m = Transferring ->
  retval (pause_offload m) = true /\
  progress_ (post (pause_offload m)) = progress_ m /\
  retval (resume_offload (post (pause_offload m))) = true /\
  post (resume_offload (post (pause_offload m))) = m /\
  status_writes
    (events (pause_offload m)
     ++ events (resume_offload (post (pause_offload m))))
    = [(Transferring, Paused); (Paused, Transferring)].
Proof.
  intros Hst. unfold pause_offload, resume_offload.
  destruct_manager m. cbn in Hst. subst.
  destruct scb; mstep; repeat split.
Qed.

(** A paused-and-resumed transfer, at the manager with [node1] started. *)
Lemma pause_resume_round_trip_witness :
  status_ node1_started = Transferring /\
  post (resume_offload (post (pause_offload node1_started)))
    = node1_started.
Proof.
  split; [reflexivity|].
  exact (proj1 (proj2 (proj2 (proj2
           (pause_resume_round_trip node1_started eq_refl))))).
Defined.

(** X4: a start from [Paused] is a restart: it is accepted (no start hook,
    a target selected) and begins a new progress record, so what had been
    transferred is no longer on record. *)
Theorem start_from_paused_restarts
    (m : MockOffloadManager) (data_ids : list string) (now : time_point) :
  start_hook_ m = None ->
  current_target_ m <> None ->
  status_ m = Paused ->
  retval (start_offload data_ids now m) = true /\
  status_ (post (start_offload data_ids now m)) = Transferring /\
  transferred_bytes (progress_ (post (start_offload data_ids now m))) = 0 /\
  segments_completed (progress_ (post (start_offload data_ids now m))) = 0 /\
  pending_bytes (progress_ (post (start_offload data_ids now m)))
    = 100 * 1024 * 1024 /\
  error_message (progress_ (post (start_offload data_ids now m))) = None /\
  start_time (progress_ (post (start_offload data_ids now m))) = now /\
  offload_data_ids_ (post (start_offload data_ids now m)) = data_ids.
Proof.
  intros Hhook Htgt Hst. unfold start_offload.
  destruct_manager m. cbn in Hhook, Htgt, Hst. subst.
  match goal with
  | H : ?t <> None |- _ => destruct t as [tgt|]; [|contradiction]
  end.
  destruct scb; mstep; repeat split.
Qed.

(** A restart after 30 MiB had been transferred. *)
Lemma start_from_paused_restarts_witness :
  transferred_bytes
    (progress_
       (post (pause_offload (post (run partial_progress_script
                                     fresh_manager)))))
    = 30 * 1024 * 1024 /\
  transferred_bytes
    (progress_
       (post (start_offload [] 50
                (post (pause_offload (post (run partial_progress_script
                                              fresh_manager)))))))
    = 0.
Proof.
  split; [reflexivity|].
  refine (proj1 (proj2 (proj2
            (start_from_paused_restarts
               (post (pause_offload (post (run partial_progress_script
                                             fresh_manager))))
               [] 50 eq_refl _ eq_refl)))).
  discriminate.
Defined.

(** X5: in a terminal status ([Completed], [Failed], [Cancelled]) and with
    no hook installed, [start_offload], [cancel_offload], [pause_offload]
    and [resume_offload] are all rejected and leave the manager as it
    was. *)
Theorem terminal_rejects_lifecycle
    (m : MockOffloadManager) (data_ids : list string) (now : time_point) :
  is_terminal (status_ m) = true ->
  start_hook_ m = None ->
  cancel_hook_ m = None ->
  (retval (start_offload data_ids now m) = false /\
   post (start_offload data_ids now m) = m) /\
  (retval (cancel_offload now m) = false /\
   post (cancel_offload now m) = m) /\
  (retval (pause_offload m) = false /\ post (pause_offload m) = m) /\
  (retval (resume_offload m) = false /\ post (resume_offload m) = m).
Proof.
  intros Hterm Hstart Hcancel.
  unfold start_offload, cancel_offload, pause_offload, resume_offload.
  destruct_manager m. cbn in Hterm, Hstart, Hcancel. subst.
  match goal with
  | |- context [mkManager _ _ _ ?t] => destruct t as [tgt|]
  end;
    destruct st; try discriminate Hterm; destruct ecb; mstep; repeat split.
Qed.

(** After a cancel nothing more is accepted. *)
Lemma terminal_rejects_lifecycle_witness :
  status_ (post (cancel_offload 20 node1_started)) = Cancelled /\
  retval (cancel_offload 30 (post (cancel_offload 20 node1_started)))
    = false.
Proof.
  split; [reflexivity|].
  exact (proj1 (proj1 (proj2
           (terminal_rejects_lifecycle
              (post (cancel_offload 20 node1_started)) [] 30
              eq_refl eq_refl eq_refl)))).
Defined.

(** ** Hooks *)

(** X6: with a start hook installed the hook's answer is the result, and an
    accepted start does nothing but assign [Transferring]: no progress
    record is begun and the data ids are not stored.  With a cancel hook
    installed the hook's answer is the result and nothing at all is
    changed or reported. *)
Theorem hooked_start_and_cancel
    (m : MockOffloadManager) (hook : unit -> bool) :
  (start_hook_ m = Some hook ->
   forall data_ids now,
     retval (start_offload data_ids now m) = hook tt /\
     post (start_offload data_ids now m)
       = (if hook tt then Upd.status Transferring m else m) /\
     progress_ (post (start_offload data_ids now m)) = progress_ m /\
     offload_data_ids_ (post (start_offload data_ids now m))
       = offload_data_ids_ m) /\
  (cancel_hook_ m = Some hook ->
   forall now,
     retval (cancel_offload now m) = hook tt /\
     post (cancel_offload now m) = m /\
     events (cancel_offload now m) = []).
Proof.
  split.
  - intros Hhook data_ids now. unfold start_offload.
    destruct_manager m. cbn in Hhook. subst.
    munfold. cbn [start_hook_].
    destruct (hook tt); destruct scb, st; cbn; repeat split.
  - intros Hhook now. unfold cancel_offload.
    destruct_manager m. cbn in Hhook. subst. mstep. repeat split.
Qed.

(** A hooked start on the constructed manager: accepted, progress still
    empty. *)
Lemma hooked_start_and_cancel_witness :
  start_hook_ start_hooked = Some (fun _ => true) /\
  retval (start_offload ["data1"] 10 start_hooked) = true /\
  total_bytes (progress_ (post (start_offload ["data1"] 10 start_hooked)))
    = 0 /\
  offload_data_ids_ (post (start_offload ["data1"] 10 start_hooked)) = [].
Proof.
  split; [reflexivity|].
  destruct (proj1 (hooked_start_and_cancel start_hooked (fun _ => true))
              eq_refl ["data1"] 10) as (Hret & _ & Hprogress & Hids).
  rewrite Hret, Hprogress, Hids. repeat split.
Defined.

(** ** Rejections *)

(** X7: with no hook installed, a rejected [start_offload],
    [cancel_offload], [pause_offload], [resume_offload],
    [select_target_node] or [auto_select_target_node] leaves the manager as
    it was and hands the subscribed error callback exactly one message,
    which tells a missing target from a wrong status and a missing node
    from an inadmissible one; unsubscribed, nothing is reported. *)
Theorem rejection_reports_once (m : MockOffloadManager) :
  start_hook_ m = None ->
  cancel_hook_ m = None ->
  select_node_hook_ m = None ->
  (forall data_ids now,
     retval (start_offload data_ids now m) = false ->
     post (start_offload data_ids now m) = m /\
     events (start_offload data_ids now m) =
       if error_callback_ m then
         [ErrorEvent
            match current_target_ m with
            | None => "No target node selected"
            | Some _ => "Offload already in progress or not in valid state"
            end]
       else []) /\
  (forall now,
     retval (cancel_offload now m) = false ->
     post (cancel_offload now m) = m /\
     events (cancel_offload now m) =
       if error_callback_ m then [ErrorEvent "No active offload to cancel"]
       else []) /\
  (retval (pause_offload m) = false ->
   post (pause_offload m) = m /\
   events (pause_offload m) =
     if error_callback_ m then [ErrorEvent "Cannot pause: not transferring"]
     else []) /\
  (retval (resume_offload m) = false ->
   post (resume_offload m) = m /\
   events (resume_offload m) =
     if error_callback_ m then [ErrorEvent "Cannot resume: not paused"]
     else []) /\
  (forall id,
     retval (select_target_node id m) = false ->
     post (select_target_node id m) = m /\
     events (select_target_node id m) =
       if error_callback_ m then
         [ErrorEvent
            match select_scan (available_nodes_ m) id with
            | Some _ =>
                String.append "Node "
                  (String.append id " cannot accept offloads")
            | None => String.append "Node not found: " id
            end]
       else []) /\
  (retval (auto_select_target_node m) = false ->
   post (auto_select_target_node m) = m /\
   events (auto_select_target_node m) =
     if error_callback_ m then
       [ErrorEvent "No suitable target node available"]
     else []).
Proof.
  intros Hstart Hcancel Hselect.
  destruct_manager m. cbn in Hstart, Hcancel, Hselect. subst.
  cbn [error_callback_ current_target_ available_nodes_].
  split; [|split; [|split; [|split; [|split]]]].
  - intros data_ids now. unfold start_offload.
    match goal with
    | |- context [mkManager _ _ _ ?t] => destruct t as [tgt|]
    end;
      destruct st, ecb, scb; mstep; intros Hrej; try discriminate Hrej;
      split; reflexivity.
  - intros now. unfold cancel_offload, notify_complete.
    destruct st, ecb, scb, ccb; mstep; intros Hrej; try discriminate Hrej;
      split; reflexivity.
  - unfold pause_offload.
    destruct st, ecb, scb; mstep; intros Hrej; try discriminate Hrej;
      split; reflexivity.
  - unfold resume_offload.
    destruct st, ecb, scb; mstep; intros Hrej; try discriminate Hrej;
      split; reflexivity.
  - intros id. unfold select_target_node. munfold.
    cbn [select_node_hook_ available_nodes_].
    match goal with
    | |- context [select_scan ?ns id] =>
        destruct (select_scan ns id) as [node|]
    end; [destruct (can_accept_offload node)|];
      destruct ecb; cbn; intros Hrej; try discriminate Hrej;
      split; reflexivity.
  - unfold auto_select_target_node. munfold. cbn [available_nodes_].
    match goal with
    | |- context [best_scan ?ns None] => destruct (best_scan ns None)
    end;
      destruct ecb; cbn; intros Hrej; try discriminate Hrej;
      split; reflexivity.
Qed.

(** A start with nothing selected, the error callback subscribed. *)
Lemma rejection_reports_once_witness :
  start_hook_ (post (on_error true fresh_manager)) = None /\
  cancel_hook_ (post (on_error true fresh_manager)) = None /\
  select_node_hook_ (post (on_error true fresh_manager)) = None /\
  events (start_offload [] 10 (post (on_error true fresh_manager)))
    = [ErrorEvent "No target node selected"].
Proof.
  split; [reflexivity|]. split; [reflexivity|]. split; [reflexivity|].
  exact (proj2 (proj1 (rejection_reports_once
                         (post (on_error true fresh_manager))
                         eq_refl eq_refl eq_refl) [] 10 eq_refl)).
Defined.

(** ** Maintenance operations *)

(** X8: setting the configuration, refreshing or editing the node list,
    subscribing and installing hooks never touch the operation: status,
    progress, selection, last result and data ids stay as they were, in
    every status, and no callback is invoked. *)
Theorem maintenance_keeps_operation (m : MockOffloadManager) (op : Op) :
  is_maintenance op = true ->
  status_ (post (exec op m)) = status_ m /\
  progress_ (post (exec op m)) = progress_ m /\
  current_target_ (post (exec op m)) = current_target_ m /\
  last_result_ (post (exec op m)) = last_result_ m /\
  offload_data_ids_ (post (exec op m)) = offload_data_ids_ m /\
  events (exec op m) = [].
Proof.
  intros Hop. destruct_manager m.
  destruct op; try discriminate Hop; unfold_ops; mstep; repeat split.
Qed.

(** Changing the configuration during a transfer. *)
Lemma maintenance_keeps_operation_witness :
  is_maintenance (OpSetConfig test_config) = true /\
  status_ (post (exec (OpSetConfig test_config) node1_started))
    = Transferring.
Proof.
  split; [reflexivity|].
  exact (proj1 (maintenance_keeps_operation node1_started
                  (OpSetConfig test_config) eq_refl)).
Defined.

(** ** The node list *)

Section NodeScans.

Variable f : TargetNode -> TargetNode.
Hypothesis f_id : forall n, node_id (f n) = node_id n.
Hypothesis f_accept : forall n, can_accept_offload (f n) = can_accept_offload n.
Hypothesis f_storage :
  forall n, available_storage_bytes (f n) = available_storage_bytes n.



End NodeScans.


Lemma select_scan_filter_other (nodes : list TargetNode) (id id' : string) :
  id' <> id ->
  select_scan (filter (fun n => negb (String.eqb (node_id n) id)) nodes) id'
    = select_scan nodes id'.
Proof.
  intros Hne. induction nodes as [|x rest IH]; [reflexivity|].
  cbn [filter select_scan].
  destruct (String.eqb_spec (node_id x) id) as [Hx|Hx]; cbn [negb].
  - destruct (String.eqb_spec (node_id x) id') as [Hx'|Hx'];
      [congruence | exact IH].
  - cbn [select_scan]. destruct (String.eqb (node_id x) id');
      [reflexivity | exact IH].
Qed.

Lemma filter_keeps_all {A : Type} (p : A -> bool) (l : list A) :
  (forall x, In x l -> p x = true) -> filter p l = l.
Proof.
  induction l as [|x rest IH]; intros H; [reflexivity|].
  cbn [filter]. rewrite (H x (or_introl eq_refl)). f_equal.
  apply IH. intros y Hy. apply H. now right.
Qed.

(** X10: [remove_node] removes every node listed under the id and keeps
    the others, each once and in their order: around a node that stays,
    what was listed before it stays before it and what was listed after it
    stays after it, and a list without the id is left as it is.  The
    nodes that stay are findable as before; the selection is not
    touched, even when the selected node is among those removed; with no
    select hook the id can no longer be selected. *)
Theorem remove_node_removes_all (m : MockOffloadManager) (id : string) :
  available_nodes_ (post (remove_node id m))
    = filter (fun n => negb (String.eqb (node_id n) id))
        (available_nodes_ m) /\
  (forall before x after,
     available_nodes_ m = before ++ x :: after ->
     node_id x <> id ->
     available_nodes_ (post (remove_node id m))
       = available_nodes_ (post (remove_node id (with_nodes before)))
         ++ x
         :: available_nodes_ (post (remove_node id (with_nodes after)))) /\
  ((forall n, In n (available_nodes_ m) -> node_id n <> id) ->
   available_nodes_ (post (remove_node id m)) = available_nodes_ m) /\
  (forall n, In n (available_nodes_ (post (remove_node id m))) <->
             In n (available_nodes_ m) /\ node_id n <> id) /\
  select_scan (available_nodes_ (post (remove_node id m))) id = None /\
  (forall id', id' <> id ->
     select_scan (available_nodes_ (post (remove_node id m))) id'
       = select_scan (available_nodes_ m) id') /\
  current_target_ (post (remove_node id m)) = current_target_ m /\
  (select_node_hook_ m = None ->
   retval (select_target_node id (post (remove_node id m))) = false).
Proof.
  assert (Hlist :
    available_nodes_ (post (remove_node id m))
      = filter (fun n => negb (String.eqb (node_id n) id))
          (available_nodes_ m)).
  { destruct_manager m. reflexivity. }
  assert (Hin : forall n,
            In n (available_nodes_ (post (remove_node id m))) <->
            In n (available_nodes_ m) /\ node_id n <> id).
  { intros n. rewrite Hlist, filter_In.
    split; intros [H1 H2]; split; try assumption.
    - destruct (String.eqb_spec (node_id n) id); [discriminate | assumption].
    - destruct (String.eqb_spec (node_id n) id); [contradiction | reflexivity]. }
  assert (Hnone :
    select_scan (available_nodes_ (post (remove_node id m))) id = None).
  { apply select_scan_None. intros n Hn. now apply Hin in Hn. }
  split; [exact Hlist|]. split; [|split; [|split; [exact Hin|]]].
  - intros before x after Hnodes Hx. rewrite Hlist, Hnodes.
    change (available_nodes_ (post (remove_node id (with_nodes before))))
      with (filter (fun n => negb (String.eqb (node_id n) id)) before).
    change (available_nodes_ (post (remove_node id (with_nodes after))))
      with (filter (fun n => negb (String.eqb (node_id n) id)) after).
    rewrite filter_app. cbn [filter].
    destruct (String.eqb_spec (node_id x) id); [contradiction|].
    reflexivity.
  - intros Hfresh. rewrite Hlist. apply filter_keeps_all. intros n Hn.
    destruct (String.eqb_spec (node_id n) id);
      [exfalso; now apply (Hfresh n) | reflexivity].
  - split; [exact Hnone|]. split; [|split].
    + intros id' Hne. rewrite Hlist. now apply select_scan_filter_other.
    + destruct_manager m. reflexivity.
    + intros Hhook.
      assert (Hhook' : select_node_hook_ (post (remove_node id m)) = None).
      { destruct_manager m. exact Hhook. }
      destruct (select_target_node_unhooked _ id Hhook') as (-> & _).
      now rewrite Hnone.
Qed.

(** X11: adding a node under an id not yet listed and removing that id
    again restores the node list; the count goes up by one in between. *)
Theorem add_remove_round_trip (m : MockOffloadManager) (n : TargetNode) :
  (forall x, In x (available_nodes_ m) -> node_id x <> node_id n) ->
  available_nodes_ (post (remove_node (node_id n) (post (add_node n m))))
    = available_nodes_ m /\
  retval (node_count (post (add_node n m))) = retval (node_count m) + 1 /\
  retval (node_count
            (post (remove_node (node_id n) (post (add_node n m)))))
    = retval (node_count m).
Proof.
  intros Hfresh.
  assert (Hlist :
    available_nodes_ (post (remove_node (node_id n) (post (add_node n m))))
      = available_nodes_ m).
  { destruct_manager m. unfold remove_node, add_node. mstep.
    cbn in Hfresh. rewrite filter_app. cbn [filter].
    rewrite String.eqb_refl. cbn [negb]. rewrite app_nil_r.
    apply filter_keeps_all. intros x Hx.
    destruct (String.eqb_spec (node_id x) (node_id n)) as [Heq|Hne];
      [exfalso; now apply (Hfresh x) | reflexivity]. }
  split; [exact Hlist|]. split.
  - destruct_manager m. unfold node_count, add_node. mstep.
    rewrite length_app, Nat2Z.inj_add. reflexivity.
  - unfold node_count at 1. unfold bind, gets, ret. cbn [retval post].
    rewrite Hlist. destruct_manager m. reflexivity.
Qed.

(** The unit test [AddRemoveNodes]. *)
Lemma add_remove_round_trip_witness :
  (forall x, In x (available_nodes_ fresh_manager) ->
             node_id x <> node_id alpha_node) /\
  available_nodes_
    (post (remove_node (node_id alpha_node)
             (post (add_node alpha_node fresh_manager))))
    = available_nodes_ fresh_manager.
Proof.
  assert (Hfresh : forall x, In x (available_nodes_ fresh_manager) ->
                             node_id x <> node_id alpha_node).
  { intros x [<-|[<-|[<-|[]]]]; discriminate. }
  split; [exact Hfresh|].
  exact (proj1 (add_remove_round_trip fresh_manager alpha_node Hfresh)).
Defined.

Lemma select_scan_app (l1 l2 : list TargetNode) (id : string) :
  select_scan (l1 ++ l2) id =
    match select_scan l1 id with
    | Some x => Some x
    | None => select_scan l2 id
    end.
Proof.
  induction l1 as [|x rest IH]; [reflexivity|].
  cbn [app select_scan].
  destruct (String.eqb (node_id x) id); [reflexivity | exact IH].
Qed.

(** X12: [add_node] appends: the list is the old list followed by the new
    node, whether or not its id is already listed, and the count goes up
    by one.  So a node added under an id that is already listed is
    shadowed: the lookup by id, hence [select_target_node], keeps deciding
    on the older node; under a new id the added node is the one found. *)
Theorem add_node_lookup
    (m : MockOffloadManager) (n : TargetNode) (id : string) :
  available_nodes_ (post (add_node n m)) = available_nodes_ m ++ [n] /\
  retval (node_count (post (add_node n m))) = retval (node_count m) + 1 /\
  select_scan (available_nodes_ (post (add_node n m))) id =
    match select_scan (available_nodes_ m) id with
    | Some older => Some older
    | None => if String.eqb (node_id n) id then Some n else None
    end /\
  (select_node_hook_ m = None ->
   select_scan (available_nodes_ m) id <> None ->
   retval (select_target_node id (post (add_node n m)))
     = retval (select_target_node id m)).
Proof.
  assert (Hlist :
    available_nodes_ (post (add_node n m)) = available_nodes_ m ++ [n]).
  { destruct_manager m. reflexivity. }
  assert (Hscan :
    select_scan (available_nodes_ (post (add_node n m))) id =
      match select_scan (available_nodes_ m) id with
      | Some older => Some older
      | None => if String.eqb (node_id n) id then Some n else None
      end).
  { rewrite Hlist. apply select_scan_app. }
  split; [exact Hlist|]. split; [|split; [exact Hscan|]].
  - destruct_manager m. unfold node_count, add_node. mstep.
    rewrite length_app, Nat2Z.inj_add. reflexivity.
  - intros Hhook Hlisted.
    assert (Hhook' : select_node_hook_ (post (add_node n m)) = None).
    { destruct_manager m. exact Hhook. }
    destruct (select_target_node_unhooked _ id Hhook') as (-> & _).
    destruct (select_target_node_unhooked m id Hhook) as (-> & _).
    rewrite Hscan.
    destruct (select_scan (available_nodes_ m) id); [reflexivity|].
    contradiction.
Qed.

(** A healthy namesake added behind an unhealthy node is listed, and
    cannot be selected. *)
Lemma add_node_lookup_witness :
  select_node_hook_ (with_nodes [dup_bad]) = None /\
  select_scan (available_nodes_ (with_nodes [dup_bad])) "dup" <> None /\
  available_nodes_ (post (add_node dup_good (with_nodes [dup_bad])))
    = [dup_bad; dup_good] /\
  retval (select_target_node "dup"
            (post (add_node dup_good (with_nodes [dup_bad])))) = false.
Proof.
  split; [reflexivity|]. split; [discriminate|].
  destruct (add_node_lookup (with_nodes [dup_bad]) dup_good "dup")
    as (Hlist & _ & _ & Hselect).
  split; [exact Hlist|].
  rewrite (Hselect eq_refl ltac:(discriminate)). reflexivity.
Defined.

Lemma health_scan_other (nodes : list TargetNode) (id id' : string)
    (h : NodeHealth) :
  id' <> id ->
  select_scan (health_scan nodes id h) id' = select_scan nodes id'.
Proof.
  intros Hne. induction nodes as [|x rest IH]; [reflexivity|].
  cbn [health_scan].
  destruct (String.eqb_spec (node_id x) id) as [Hx|Hx]; cbn [select_scan].
  - cbn [NUpd.set_health node_id].
    destruct (String.eqb_spec (node_id x) id'); [congruence | reflexivity].
  - destruct (String.eqb (node_id x) id'); [reflexivity | exact IH].
Qed.

Lemma health_scan_same (nodes : list TargetNode) (id : string)
    (h : NodeHealth) :
  select_scan (health_scan nodes id h) id
    = option_map (NUpd.set_health h) (select_scan nodes id).
Proof.
  induction nodes as [|x rest IH]; [reflexivity|].
  cbn [health_scan select_scan].
  destruct (String.eqb_spec (node_id x) id) as [Hx|Hx]; cbn [select_scan].
  - cbn [NUpd.set_health node_id]. rewrite Hx, String.eqb_refl.
    reflexivity.
  - destruct (String.eqb_spec (node_id x) id); [contradiction | exact IH].
Qed.

Lemma health_scan_ids (nodes : list TargetNode) (id : string)
    (h : NodeHealth) :
  map node_id (health_scan nodes id h) = map node_id nodes.
Proof.
  induction nodes as [|x rest IH]; [reflexivity|].
  cbn [health_scan]. destruct (String.eqb (node_id x) id); cbn [map].
  - reflexivity.
  - now rewrite IH.
Qed.

Lemma health_scan_missing (nodes : list TargetNode) (id : string)
    (h : NodeHealth) :
  select_scan nodes id = None -> health_scan nodes id h = nodes.
Proof.
  induction nodes as [|x rest IH]; [reflexivity|].
  cbn [health_scan select_scan].
  destruct (String.eqb (node_id x) id); [discriminate|].
  intros H. now rewrite IH.
Qed.

Lemma health_scan_first (before after : list TargetNode) (x : TargetNode)
    (id : string) (h : NodeHealth) :
  node_id x = id ->
  (forall n, In n before -> node_id n <> id) ->
  health_scan (before ++ x :: after) id h
    = before ++ NUpd.set_health h x :: after.
Proof.
  intros Hx. induction before as [|y before IH]; intros Hbefore.
  - cbn [app health_scan]. rewrite Hx, String.eqb_refl. reflexivity.
  - cbn [app health_scan].
    destruct (String.eqb_spec (node_id y) id) as [Hy|Hy].
    + exfalso. apply (Hbefore y); [now left | exact Hy].
    + f_equal. apply IH. intros n Hn. apply Hbefore. now right.
Qed.

(** X13: [set_node_health] sets the health of the first node listed under
    the id and of no other: the nodes before it and all the nodes after
    it, later namesakes included, are left as they are, and so are the
    other fields of the node itself; an unknown id changes nothing, and
    the copy held as the selection keeps its old health.  With no select
    hook, an id whose health was set to anything but [Healthy] is refused
    by [select_target_node]. *)
Theorem set_node_health_first_match
    (m : MockOffloadManager) (id : string) (h : NodeHealth) :
  (forall before x after,
     available_nodes_ m = before ++ x :: after ->
     node_id x = id ->
     (forall n, In n before -> node_id n <> id) ->
     available_nodes_ (post (set_node_health id h m))
       = before
         ++ {| node_id := node_id x;
               host := host x;
               port := port x;
               cluster_id := cluster_id x;
               region := region x;
               total_storage_bytes := total_storage_bytes x;
               available_storage_bytes := available_storage_bytes x;
               used_storage_bytes := used_storage_bytes x;
               cpu_usage_percent := cpu_usage_percent x;
               memory_usage_percent := memory_usage_percent x;
               network_utilization_percent :=
                 network_utilization_percent x;
               health := h;
               accepting_offloads := accepting_offloads x;
               active_offload_count := active_offload_count x;
               max_concurrent_offloads := max_concurrent_offloads x;
               last_health_check := last_health_check x;
               last_successful_offload := last_successful_offload x |}
         :: after) /\
  select_scan (available_nodes_ (post (set_node_health id h m))) id
    = option_map (NUpd.set_health h) (select_scan (available_nodes_ m) id) /\
  (forall id', id' <> id ->
     select_scan (available_nodes_ (post (set_node_health id h m))) id'
       = select_scan (available_nodes_ m) id') /\
  map node_id (available_nodes_ (post (set_node_health id h m)))
    = map node_id (available_nodes_ m) /\
  (select_scan (available_nodes_ m) id = None ->
   available_nodes_ (post (set_node_health id h m)) = available_nodes_ m) /\
  current_target_ (post (set_node_health id h m)) = current_target_ m /\
  (select_node_hook_ m = None -> h <> Healthy ->
   retval (select_target_node id (post (set_node_health id h m))) = false).
Proof.
  assert (Hsame :
    select_scan (available_nodes_ (post (set_node_health id h m))) id
      = option_map (NUpd.set_health h)
          (select_scan (available_nodes_ m) id)).
  { destruct_manager m. apply health_scan_same. }
  split; [|split; [exact Hsame|split; [|split; [|split; [|split]]]]].
  - intros before x after Hnodes Hx Hbefore.
    destruct_manager m. cbn [available_nodes_] in Hnodes. subst.
    unfold set_node_health. mstep.
    now apply health_scan_first.
  - intros id' Hne. destruct_manager m. now apply health_scan_other.
  - destruct_manager m. apply health_scan_ids.
  - intros Hnone. destruct_manager m. now apply health_scan_missing.
  - destruct_manager m. reflexivity.
  - intros Hhook Hh.
    assert (Hhook' : select_node_hook_ (post (set_node_health id h m)) = None).
    { destruct_manager m. exact Hhook. }
    destruct (select_target_node_unhooked _ id Hhook') as (-> & _).
    rewrite Hsame.
    destruct (select_scan (available_nodes_ m) id) as [node|];
      [|reflexivity].
    cbn [option_map]. unfold can_accept_offload.
    cbn [NUpd.set_health health accepting_offloads].
    destruct h; try contradiction; cbn [health_eqb];
      now rewrite andb_false_r.
Qed.

(** The unit test [TargetNodeUnavailable]. *)
Lemma set_node_health_first_match_witness :
  select_node_hook_ fresh_manager = None /\
  Unhealthy <> Healthy /\
  retval (select_target_node "node1"
            (post (set_node_health "node1" Unhealthy fresh_manager)))
    = false.
Proof.
  split; [reflexivity|]. split; [discriminate|].
  destruct (set_node_health_first_match fresh_manager "node1" Unhealthy)
    as (_ & _ & _ & _ & _ & _ & Hselect).
  exact (Hselect eq_refl ltac:(discriminate)).
Defined.

(** X14: a nodes hook decides what [get_available_nodes] returns and
    nothing else: the call changes nothing, and [node_count],
    [select_target_node] and [auto_select_target_node] go on working on the
    manager's own list, exactly as if no nodes hook were installed. *)
Theorem nodes_hook_only_lists
    (m : MockOffloadManager) (hook : unit -> list TargetNode) :
  nodes_hook_ m = Some hook ->
  retval (get_available_nodes m) = hook tt /\
  post (get_available_nodes m) = m /\
  retval (node_count m)
    = Z.of_nat (List.length (available_nodes_ m)) /\
  retval (auto_select_target_node m)
    = retval (auto_select_target_node (Upd.nodes_hook None m)) /\
  current_target_ (post (auto_select_target_node m))
    = current_target_
        (post (auto_select_target_node (Upd.nodes_hook None m))) /\
  (forall id,
     retval (select_target_node id m)
       = retval (select_target_node id (Upd.nodes_hook None m)) /\
     current_target_ (post (select_target_node id m))
       = current_target_
           (post (select_target_node id (Upd.nodes_hook None m)))).
Proof.
  intros Hhook. destruct_manager m. cbn in Hhook. subst.
  split; [reflexivity|]. split; [reflexivity|]. split; [reflexivity|].
  split; [|split].
  - now rewrite !(proj1 (auto_select_unfold _)).
  - now rewrite !(proj2 (auto_select_unfold _)).
  - intros id.
    match goal with
    | |- context [mkManager _ _ _ _ _ _ _ _ _ _ _ _ _ ?h] =>
        destruct h as [shook|]
    end.
    + unfold select_target_node. mstep. split; reflexivity.
    + match goal with
      | |- retval (select_target_node id ?a) = retval (select_target_node id ?b) /\ _ =>
          destruct (select_target_node_unhooked a id eq_refl)
            as (-> & -> & _);
          destruct (select_target_node_unhooked b id eq_refl)
            as (-> & -> & _)
      end.
      split; reflexivity.
Qed.

(** A hook that lists nothing hides no node from selection. *)
Lemma nodes_hook_only_lists_witness :
  nodes_hook_
    (post (set_nodes_hook (Some (fun _ => [])) fresh_manager))
    = Some (fun _ => []) /\
  retval (get_available_nodes
            (post (set_nodes_hook (Some (fun _ => [])) fresh_manager)))
    = [] /\
  retval (node_count
            (post (set_nodes_hook (Some (fun _ => [])) fresh_manager)))
    = 3.
Proof.
  split; [reflexivity|].
  destruct (nodes_hook_only_lists
              (post (set_nodes_hook (Some (fun _ => [])) fresh_manager))
              (fun _ => []) eq_refl) as (Hlist & _ & Hcount & _).
  rewrite Hlist, Hcount. split; reflexivity.
Defined.

(** X15: the selection is a copy taken when the node was selected: after
    the selected node is removed from the list, or the list emptied, a
    start is still accepted, and the result of the operation names the
    removed node as its target. *)
Theorem selection_survives_removal
    (m : MockOffloadManager) (t : TargetNode)
    (data_ids : list string) (t0 t1 : time_point) :
  current_target_ m = Some t ->
  start_hook_ m = None ->
  status_ m = Idle ->
  retval (start_offload data_ids t0 (post (remove_node (node_id t) m)))
    = true /\
  retval (start_offload data_ids t0 (post (clear_nodes m))) = true /\
  option_map target_node
    (last_result_
       (post (simulate_complete true t1
                (post (start_offload data_ids t0
                         (post (remove_node (node_id t) m)))))))
    = Some t.
Proof.
  intros Htgt Hhook Hst. destruct_manager m. cbn in Htgt, Hhook, Hst. subst.
  unfold start_offload, remove_node, clear_nodes, simulate_complete,
    notify_complete.
  destruct scb, ccb; mstep; repeat split.
Qed.

(** [node1] selected, then removed, then used. *)
Lemma selection_survives_removal_witness :
  option_map node_id (current_target_ node1_selected) = Some "node1" /\
  select_scan
    (available_nodes_ (post (remove_node "node1" node1_selected))) "node1"
    = None /\
  retval (start_offload [] 10 (post (remove_node "node1" node1_selected)))
    = true.
Proof.
  split; [reflexivity|]. split; [reflexivity|].
  exact (proj1 (selection_survives_removal node1_selected
                  (create_mock_node "node1" "192.168.1.10"
                     (100 * 1024 * 1024 * 1024) 30%float 40%float 1)
                  [] 10 20 eq_refl eq_refl eq_refl)).
Defined.

(** ** Outcomes *)

(** X16: [simulate_error] works in every status: it records the message in
    the progress record, leaves the counters alone, assigns [Failed] and
    stores an unsuccessful result carrying the message and that progress
    record; the error callback is handed the message before the completion
    callback is handed the result. *)
Theorem simulate_error_outcome
    (m : MockOffloadManager) (error : string) (now : time_point) :
  status_ (post (simulate_error error now m)) = Failed /\
  progress_ (post (simulate_error error now m))
    = PUpd.set_error_message (Some error) (progress_ m) /\
  completed_successfully (progress_ (post (simulate_error error now m)))
    = false /\
  last_result_ (post (simulate_error error now m)) =
    Some {| success := false;
            result_error_message := Some error;
            final_progress :=
              PUpd.set_error_message (Some error) (progress_ m);
            target_node := target_at_completion m;
            completed_at := now |} /\
  (error_callback_ m = true -> complete_callback_ m = true ->
   exists r status_events,
     events (simulate_error error now m)
       = status_events ++ [ErrorEvent error; CompleteEvent r] /\
     last_result_ (post (simulate_error error now m)) = Some r /\
     forall e, In e status_events ->
       e = StatusAssigned (status_ m) Failed \/
       e = StatusChangeEvent (status_ m) Failed).
Proof.
  destruct_manager m. unfold simulate_error, notify_complete,
    target_at_completion, completed_successfully.
  split; [destruct scb, ecb, ccb, st; reflexivity|].
  split; [destruct scb, ecb, ccb, st; reflexivity|].
  split.
  { destruct scb, ecb, ccb, st; mstep; now rewrite andb_false_r. }
  split; [destruct scb, ecb, ccb, st; reflexivity|].
  cbn [error_callback_ complete_callback_]. intros -> ->.
  destruct scb, st; mstep; eexists; eexists;
    (split; [|split; [reflexivity|]]);
    try (instantiate (1 := [_]); reflexivity);
    try (instantiate (1 := [_; _]); reflexivity);
    intros e Hin; cbn in Hin; intuition (subst; auto).
Qed.

(** X17: [simulate_complete] works in every status.  With [true] it sets
    the counters to "all done", assigns [Completed] and stores a
    successful result without error message; yet
    [completed_successfully] holds of the progress record only if an
    operation had been started ([segments_total] positive) and no earlier
    [simulate_error] left its message.  With [false] it assigns [Failed],
    leaves the progress record alone and stores an unsuccessful result
    with the message on record, if any. *)
Theorem simulate_complete_outcome
    (m : MockOffloadManager) (now : time_point) :
  (status_ (post (simulate_complete true now m)) = Completed /\
   transferred_bytes (progress_ (post (simulate_complete true now m)))
     = total_bytes (progress_ m) /\
   pending_bytes (progress_ (post (simulate_complete true now m))) = 0 /\
   segments_completed (progress_ (post (simulate_complete true now m)))
     = segments_total (progress_ m) /\
   segments_pending (progress_ (post (simulate_complete true now m))) = 0 /\
   option_map success (last_result_ (post (simulate_complete true now m)))
     = Some true /\
   option_map result_error_message
     (last_result_ (post (simulate_complete true now m))) = Some None /\
   option_map final_progress
     (last_result_ (post (simulate_complete true now m)))
     = Some (progress_ (post (simulate_complete true now m))) /\
   completed_successfully (progress_ (post (simulate_complete true now m)))
     = (0 <? segments_total (progress_ m)) &&
       match error_message (progress_ m) with
       | None => true
       | Some _ => false
       end) /\
  (status_ (post (simulate_complete false now m)) = Failed /\
   progress_ (post (simulate_complete false now m)) = progress_ m /\
   option_map success (last_result_ (post (simulate_complete false now m)))
     = Some false /\
   option_map result_error_message
     (last_result_ (post (simulate_complete false now m)))
     = Some (error_message (progress_ m))).
Proof.
  destruct_manager m. unfold simulate_complete, notify_complete,
    completed_successfully.
  match goal with
  | |- context [mkManager _ _ ?p] => destruct p
  end.
  split.
  - destruct scb, ccb, st; mstep; rewrite Z.eqb_refl; repeat split.
  - destruct scb, ccb, st; mstep; repeat split.
Qed.

(** X18: [simulate_progress] is not guarded by the status: in every status
    it advances the counters, leaves status, selection, last result, start
    time and error message alone, stamps the record with the second clock
    reading, recomputes [elapsed] from it only if a start time is on
    record, and hands the subscribed progress callback the updated record,
    once. *)
Theorem simulate_progress_unguarded
    (m : MockOffloadManager) (bytes : Z) (now1 now2 : time_point) :
  status_ (post (simulate_progress bytes now1 now2 m)) = status_ m /\
  current_target_ (post (simulate_progress bytes now1 now2 m))
    = current_target_ m /\
  last_result_ (post (simulate_progress bytes now1 now2 m))
    = last_result_ m /\
  start_time (progress_ (post (simulate_progress bytes now1 now2 m)))
    = start_time (progress_ m) /\
  error_message (progress_ (post (simulate_progress bytes now1 now2 m)))
    = error_message (progress_ m) /\
  last_update (progress_ (post (simulate_progress bytes now1 now2 m)))
    = now2 /\
  elapsed (progress_ (post (simulate_progress bytes now1 now2 m)))
    = (if 0 <? start_time (progress_ m)
       then to_microseconds (now2 - start_time (progress_ m))
       else elapsed (progress_ m)) /\
  bytes_per_second (progress_ (post (simulate_progress bytes now1 now2 m)))
    = double_of_Z bytes /\
  events (simulate_progress bytes now1 now2 m)
    = (if progress_callback_ m
       then [ProgressEvent
               (progress_ (post (simulate_progress bytes now1 now2 m)))]
       else []).
Proof.
  destruct_manager m. unfold simulate_progress, notify_progress.
  match goal with
  | |- context [mkManager _ _ ?p] => destruct p as [? ? ? ? ? ? ? ts ? ? ? ? ? ?]
  end.
  destruct pcb, ts; crunch; repeat split; reflexivity.
Qed.

(** X19: an accepted start followed by a cancel stores a result whose
    [duration()] is zero whatever the two clock readings are: only progress
    notifications update [elapsed], completion does not.  The result is
    stamped with the reading taken at the cancel and keeps the start
    time. *)
Theorem cancel_after_start_has_no_duration
    (m : MockOffloadManager) (data_ids : list string) (t0 t1 : time_point) :
  start_hook_ m = None ->
  cancel_hook_ m = None ->
  retval (start_offload data_ids t0 m) = true ->
  retval (cancel_offload t1 (post (start_offload data_ids t0 m))) = true /\
  option_map duration
    (last_result_
       (post (cancel_offload t1 (post (start_offload data_ids t0 m)))))
    = Some 0 /\
  option_map completed_at
    (last_result_
       (post (cancel_offload t1 (post (start_offload data_ids t0 m)))))
    = Some t1 /\
  option_map (fun r => start_time (final_progress r))
    (last_result_
       (post (cancel_offload t1 (post (start_offload data_ids t0 m)))))
    = Some t0.
Proof.
  intros Hstart Hcancel. destruct_manager m. cbn in Hstart, Hcancel. subst.
  unfold start_offload, cancel_offload, notify_complete.
  match goal with
  | |- context [mkManager _ _ _ ?t] => destruct t as [tgt|]
  end;
    destruct st, ecb, scb, ccb; mstep; intros Hok; try discriminate Hok;
    repeat split.
Qed.

(** An hour between start and cancel. *)
Lemma cancel_after_start_has_no_duration_witness :
  start_hook_ node1_selected = None /\
  cancel_hook_ node1_selected = None /\
  retval (start_offload [] 10 node1_selected) = true /\
  option_map duration
    (last_result_
       (post (cancel_offload 3600000000010
                (post (start_offload [] 10 node1_selected)))))
    = Some 0.
Proof.
  split; [reflexivity|]. split; [reflexivity|]. split; [reflexivity|].
  exact (proj1 (proj2 (cancel_after_start_has_no_duration node1_selected
                         [] 10 3600000000010 eq_refl eq_refl eq_refl))).
Defined.

(** ** Series of progress reports *)

Lemma run_cons_post (op : Op) (rest : list Op) (m : MockOffloadManager) :
  post (run (op :: rest) m) = post (run rest (post (exec op m))).
Proof.
  cbn [run]. unfold bind.
  destruct (exec op m) as [[] m1 e1]. cbn [post].
  destruct (run rest m1) as [[] m2 e2]. reflexivity.
Qed.

(** [simulate_progress] keeps the counters consistent. *)
Lemma simulate_progress_wf (m : MockOffloadManager)
    (bytes : Z) (now1 now2 : time_point) :
  progress_wf (progress_ m) ->
  progress_wf (progress_ (post (simulate_progress bytes now1 now2 m))).
Proof.
  intros (WT & Wt & WS & Wc & Wf & Wp & Wsp).
  destruct (simulate_progress_counters m bytes now1 now2)
    as (Ht & Hp & Hc & Hsp & HT & HS & Hf).
  unfold progress_wf. rewrite Ht, Hp, Hc, Hsp, HT, HS, Hf.
  repeat split; try apply wrap64_range; try apply WT; try apply WS.
  exact Wf.
Qed.

Lemma reported_bytes_nonneg (reports : list (Z * (time_point * time_point))) :
  (forall r, In r reports -> 0 <= fst r) -> 0 <= reported_bytes reports.
Proof.
  unfold reported_bytes. induction reports as [|r rest IH]; intros Hpos.
  - cbn. lia.
  - cbn [map sum_Z fold_right]. fold (sum_Z (map fst rest)).
    assert (0 <= fst r) by (apply Hpos; now left).
    assert (0 <= sum_Z (map fst rest))
      by (apply IH; intros r' Hr'; apply Hpos; now right).
    lia.
Qed.

(** X20: from a manager with consistent counters, and as long as the sums
    stay within [size_t], a series of [simulate_progress] calls adds up:
    [transferred_bytes] grows by the sum of the reported byte counts and
    [segments_completed] by the number of calls, one segment per call
    whatever its size, and the totals stay; as long as the sums do not pass
    the totals, the pending counters are what is left. *)
Theorem progress_reports_accumulate
    (reports : list (Z * (time_point * time_point))) :
  forall m : MockOffloadManager,
  progress_wf (progress_ m) ->
  (forall r, In r reports -> 0 <= fst r) ->
  transferred_bytes (progress_ m) + reported_bytes reports <= size_t_max ->
  segments_completed (progress_ m) + Z.of_nat (List.length reports)
    <= size_t_max ->
  transferred_bytes (progress_ (post (run (progress_reports reports) m)))
    = transferred_bytes (progress_ m) + reported_bytes reports /\
  segments_completed (progress_ (post (run (progress_reports reports) m)))
    = segments_completed (progress_ m) + Z.of_nat (List.length reports) /\
  total_bytes (progress_ (post (run (progress_reports reports) m)))
    = total_bytes (progress_ m) /\
  segments_total (progress_ (post (run (progress_reports reports) m)))
    = segments_total (progress_ m) /\
  (transferred_bytes (progress_ m) + reported_bytes reports
     <= total_bytes (progress_ m) ->
   pending_bytes (progress_ (post (run (progress_reports reports) m)))
     = total_bytes (progress_ m)
       - (transferred_bytes (progress_ m) + reported_bytes reports)) /\
  (segments_completed (progress_ m) + Z.of_nat (List.length reports)
     <= segments_total (progress_ m) ->
   segments_pending (progress_ (post (run (progress_reports reports) m)))
     = segments_total (progress_ m)
       - (segments_completed (progress_ m)
          + Z.of_nat (List.length reports))).
Proof.
  induction reports as [|[bytes [now1 now2]] rest IH];
    intros m Hwf Hpos Hsum Hcount.
  - destruct Hwf as (WT & Wt & WS & Wc & _ & Wp & Wsp).
    change (post (run (progress_reports []) m)) with m.
    change (reported_bytes []) with 0.
    change (Z.of_nat (List.length (@nil (Z * (time_point * time_point)))))
      with 0.
    unfold is_size_t in WT, Wt, WS, Wc.
    repeat split; try lia.
    + intros Hle. rewrite Wp. rewrite wrap64_small;
        [lia | unfold is_size_t; lia].
    + intros Hle. rewrite Wsp. rewrite wrap64_small;
        [lia | unfold is_size_t; lia].
  - pose proof (simulate_progress_wf m bytes now1 now2 Hwf) as Hwf1.
    pose proof (simulate_progress_counters m bytes now1 now2) as Hcnt.
    unfold progress_reports. cbn [map fst snd]. rewrite run_cons_post.
    fold (progress_reports rest).
    change (exec (OpSimulateProgress bytes now1 now2))
      with (simulate_progress bytes now1 now2).
    remember (post (simulate_progress bytes now1 now2 m)) as m1 eqn:Hm1.
    clear Hm1. destruct Hcnt as (Et & _ & Ec & _ & ET & ES & _).
    assert (Hbytes : 0 <= bytes)
      by (apply (Hpos (bytes, (now1, now2))); now left).
    assert (Hrest : 0 <= reported_bytes rest)
      by (apply reported_bytes_nonneg; intros r Hr; apply Hpos; now right).
    change (reported_bytes ((bytes, (now1, now2)) :: rest))
      with (bytes + reported_bytes rest) in *.
    cbn [List.length] in *. rewrite Nat2Z.inj_succ in *.
    destruct Hwf as (WT & Wt & WS & Wc & _).
    unfold is_size_t in WT, Wt, WS, Wc.
    assert (Et' : transferred_bytes (progress_ m1)
                  = transferred_bytes (progress_ m) + bytes).
    { rewrite Et. apply wrap64_small. unfold is_size_t. lia. }
    assert (Ec' : segments_completed (progress_ m1)
                  = segments_completed (progress_ m) + 1).
    { rewrite Ec. apply wrap64_small. unfold is_size_t. lia. }
    destruct (IH m1 Hwf1) as (It & Ic & IT & IS & Ip & Isp).
    + intros r Hr. apply Hpos. now right.
    + rewrite Et'. lia.
    + rewrite Ec'. lia.
    + rewrite It, Ic, IT, IS, Et', Ec', ET, ES.
      split; [lia|]. split; [lia|]. split; [reflexivity|].
      split; [reflexivity|]. split.
      * intros Hle. rewrite Ip; rewrite ?Et', ?ET; lia.
      * intros Hle. rewrite Isp; rewrite ?Ec', ?ES; lia.
Qed.

(** The unit test [ProgressCallbacks]: four reports of 25 MiB. *)
Lemma progress_reports_accumulate_witness :
  progress_wf (progress_ node1_started) /\
  pending_bytes
    (progress_
       (post (run (progress_reports
                     (repeat (25 * 1024 * 1024, (20, 21)) 4))
                node1_started)))
    = 0.
Proof.
  assert (Hwf : progress_wf (progress_ node1_started)).
  { unfold progress_wf, is_size_t, size_t_max. vm_compute.
    intuition discriminate. }
  split; [exact Hwf|].
  refine (eq_trans
            (proj1 (proj2 (proj2 (proj2 (proj2
               (progress_reports_accumulate
                  (repeat (25 * 1024 * 1024, (20, 21)) 4) node1_started
                  Hwf _ _ _))))) _) _).
  - intros r Hr. cbn in Hr.
    destruct Hr as [<-|[<-|[<-|[<-|[]]]]]; vm_compute; discriminate.
  - vm_compute. discriminate.
  - vm_compute. discriminate.
  - vm_compute. discriminate.
  - reflexivity.
Defined.

(** ** What holds of every manager a client can bring about *)

Lemma exec_progress_shape (m : MockOffloadManager) (op : Op) :
  progress_shape (progress_ m) ->
  progress_shape (progress_ (post (exec op m))).
Proof.
  intros Hshape. destruct_manager m.
  match goal with
  | H : progress_shape (progress_ (mkManager _ _ ?p _ _ _ _ _ _ _ _ _ _ _ _))
    |- _ => destruct p as [? ? ? ? ? ? ? ts ? ? ? ? ? ?]
  end.
  destruct op; unfold_ops; destruct st, ts; crunch; try exact Hshape.
  all: unfold progress_shape; cbn; auto.
Qed.

(** X21: in every manager reachable from construction through the public
    operations, no segment is counted as failed and no current segment is
    named, whatever was simulated, and the totals are either both zero or
    100 MiB in 100 segments. *)
Theorem reachable_progress_shape (m : MockOffloadManager) :
  reachable m ->
  segments_failed (progress_ m) = 0 /\
  current_segment_id (progress_ m) = None /\
  ((total_bytes (progress_ m) = 0 /\ segments_total (progress_ m) = 0) \/
   (total_bytes (progress_ m) = 100 * 1024 * 1024 /\
    segments_total (progress_ m) = 100)).
Proof.
  induction 1 as [t1 t2 t3 | m op _ IH].
  - repeat split. left. split; reflexivity.
  - now apply exec_progress_shape.
Qed.

(** After a simulated error no segment counts as failed. *)
Lemma reachable_progress_shape_witness :
  reachable (post (simulate_error "Transfer failed" 20 node1_started)) /\
  segments_failed
    (progress_ (post (simulate_error "Transfer failed" 20 node1_started)))
    = 0.
Proof.
  assert (Hreach :
    reachable (post (simulate_error "Transfer failed" 20 node1_started))).
  { apply (reachable_exec _ (OpSimulateError "Transfer failed" 20)).
    apply (reachable_exec node1_selected (OpStartOffload [] 10)).
    apply (reachable_exec fresh_manager (OpSelectTargetNode "node1")).
    apply reachable_new. }
  split; [exact Hreach|].
  exact (proj1 (reachable_progress_shape _ Hreach)).
Defined.

Lemma post_discard {A : Type} (c : M A) (m : MockOffloadManager) :
  post (discard c m) = post (c m).
Proof. unfold discard, bind, ret. destruct (c m). reflexivity. Qed.

Lemma exec_target_admissible (m : MockOffloadManager) (op : Op) :
  target_admissible m -> target_admissible (post (exec op m)).
Proof.
  intros Hadm. unfold target_admissible in *.
  destruct op;
    try (destruct_manager m; unfold_ops; destruct st; crunch;
         first [exact Hadm | exact I]).
  - (* select_target_node *)
    cbn [exec]. rewrite post_discard.
    destruct (select_node_hook_ m) as [hook|] eqn:Hhook.
    + destruct (select_target_node_hooked m id hook Hhook) as [_ ->].
      exact Hadm.
    + destruct (select_target_node_unhooked m id Hhook) as (_ & -> & _).
      destruct (select_scan (available_nodes_ m) id) as [node|];
        [|exact Hadm].
      destruct (can_accept_offload node) eqn:Hacc; [exact Hacc | exact Hadm].
  - (* auto_select_target_node *)
    cbn [exec]. rewrite post_discard.
    rewrite (proj2 (auto_select_unfold m)).
    destruct (best_scan_spec (available_nodes_ m))
      as [[-> _] | (best & before & after & -> & _ & Hacc & _)];
      [exact Hadm | exact Hacc].
Qed.

(** X22: in every manager reachable from construction through the public
    operations, the selection, when there is one, passes
    [can_accept_offload]: it was admissible when it was copied, and the
    copy is never updated. *)
Theorem reachable_target_admissible (m : MockOffloadManager) :
  reachable m ->
  match current_target_ m with
  | Some t =>
      accepting_offloads t = true /\ health t = Healthy /\
      active_offload_count t < max_concurrent_offloads t
  | None => True
  end.
Proof.
  intros Hreach.
  assert (Hadm : target_admissible m).
  { induction Hreach as [t1 t2 t3 | m op _ IH].
    - exact I.
    - now apply exec_target_admissible. }
  unfold target_admissible in Hadm.
  destruct (current_target_ m) as [t|]; [|exact I].
  unfold can_accept_offload in Hadm.
  apply andb_prop in Hadm as [Hadm Hcount].
  apply andb_prop in Hadm as [Haccepting Hhealth].
  repeat split; try assumption.
  - destruct (health t); try discriminate Hhealth. reflexivity.
  - now apply Z.ltb_lt.
Qed.

(** The selection stays [Healthy] when the listed node is marked
    [Unhealthy]. *)
Lemma reachable_target_admissible_witness :
  reachable (post (set_node_health "node1" Unhealthy node1_selected)) /\
  option_map health
    (select_scan
       (available_nodes_
          (post (set_node_health "node1" Unhealthy node1_selected)))
       "node1") = Some Unhealthy /\
  option_map health
    (current_target_
       (post (set_node_health "node1" Unhealthy node1_selected)))
    = Some Healthy.
Proof.
  assert (Hreach :
    reachable (post (set_node_health "node1" Unhealthy node1_selected))).
  { apply (reachable_exec node1_selected
             (OpSetNodeHealth "node1" Unhealthy)).
    apply (reachable_exec fresh_manager (OpSelectTargetNode "node1")).
    apply reachable_new. }
  split; [exact Hreach|]. split; [reflexivity|].
  pose proof (reachable_target_admissible _ Hreach) as H.
  destruct (current_target_
              (post (set_node_health "node1" Unhealthy node1_selected)))
    as [t|] eqn:Htgt; [|vm_compute in Htgt; discriminate Htgt].
  cbn [option_map]. f_equal. exact (proj1 (proj2 H)).
Defined.

(** ** Automatic selection and the order of the node list *)

Lemma NoDup_map_inj {A B : Type} (f : A -> B) (l : list A) (a b : A) :
  NoDup (map f l) -> In a l -> In b l -> f a = f b -> a = b.
Proof.
  induction l as [|x rest IH]; cbn [map]; intros Hnd Ha Hb Hab;
    [contradiction|].
  inversion Hnd as [|? ? Hnotin Hnd']; subst.
  destruct Ha as [->|Ha], Hb as [->|Hb].
  - reflexivity.
  - exfalso. apply Hnotin. rewrite Hab. now apply in_map.
  - exfalso. apply Hnotin. rewrite <- Hab. now apply in_map.
  - now apply IH.
Qed.

(** The node the scan ends with is an admissible node of the list with the
    largest storage among the admissible ones. *)
Lemma best_scan_max (nodes : list TargetNode) (r : TargetNode) :
  best_scan nodes None = Some r ->
  In r nodes /\ can_accept_offload r = true /\
  forall n, In n nodes -> can_accept_offload n = true ->
            available_storage_bytes n <= available_storage_bytes r.
Proof.
  intros Hscan.
  destruct (best_scan_spec nodes)
    as [[Hnone _] | (best & before & after & Hbest & -> & Hacc & Hb & Ha)];
    [congruence|].
  rewrite Hbest in Hscan. injection Hscan as <-.
  split; [apply in_or_app; right; now left|]. split; [exact Hacc|].
  intros n Hn Hn'. apply in_app_or in Hn as [Hn|[<-|Hn]].
  - specialize (Hb n Hn Hn'). lia.
  - lia.
  - now apply Ha.
Qed.

Lemma best_scan_none (nodes : list TargetNode) :
  best_scan nodes None = None ->
  forall n, In n nodes -> can_accept_offload n = false.
Proof.
  intros Hscan.
  destruct (best_scan_spec nodes)
    as [[_ Hall] | (best & before & after & Hbest & _)];
    [exact Hall | congruence].
Qed.

(** X23: when no two admissible nodes have the same available storage, the
    node [auto_select_target_node] selects does not depend on the order of
    the node list: any permutation of the list gives the same result and
    the same selection. *)
Theorem auto_select_order_independent
    (m : MockOffloadManager) (nodes1 nodes2 : list TargetNode) :
  Permutation nodes1 nodes2 ->
  NoDup (map available_storage_bytes (filter can_accept_offload nodes1)) ->
  best_scan nodes1 None = best_scan nodes2 None /\
  retval (auto_select_target_node (post (set_available_nodes nodes1 m)))
    = retval (auto_select_target_node (post (set_available_nodes nodes2 m)))
  /\
  current_target_
    (post (auto_select_target_node (post (set_available_nodes nodes1 m))))
    = current_target_
        (post (auto_select_target_node
                 (post (set_available_nodes nodes2 m)))).
Proof.
  intros Hperm Hnd.
  assert (Hscan : best_scan nodes1 None = best_scan nodes2 None).
  { destruct (best_scan nodes1 None) as [r1|] eqn:H1;
      destruct (best_scan nodes2 None) as [r2|] eqn:H2.
    - destruct (best_scan_max _ _ H1) as (Hin1 & Hacc1 & Hmax1).
      destruct (best_scan_max _ _ H2) as (Hin2 & Hacc2 & Hmax2).
      assert (Hin21 : In r2 nodes1)
        by (apply (Permutation_in _ (Permutation_sym Hperm)); exact Hin2).
      assert (Hin12 : In r1 nodes2)
        by (apply (Permutation_in _ Hperm); exact Hin1).
      pose proof (Hmax1 r2 Hin21 Hacc2). pose proof (Hmax2 r1 Hin12 Hacc1).
      f_equal.
      apply (NoDup_map_inj available_storage_bytes
               (filter can_accept_offload nodes1)); try assumption.
      + apply filter_In. now split.
      + apply filter_In. now split.
      + lia.
    - destruct (best_scan_max _ _ H1) as (Hin1 & Hacc1 & _).
      pose proof (best_scan_none _ H2 r1 (Permutation_in _ Hperm Hin1)).
      congruence.
    - destruct (best_scan_max _ _ H2) as (Hin2 & Hacc2 & _).
      pose proof (best_scan_none _ H1 r2
                    (Permutation_in _ (Permutation_sym Hperm) Hin2)).
      congruence.
    - reflexivity. }
  split; [exact Hscan|].
  rewrite !(proj1 (auto_select_unfold _)), !(proj2 (auto_select_unfold _)).
  destruct_manager m. cbn [set_available_nodes]. unfold set_available_nodes.
  mstep. rewrite Hscan. split; reflexivity.
Qed.

(** The default nodes in reverse order: again the 200 GiB node. *)
Lemma auto_select_order_independent_witness :
  Permutation (default_mock_nodes 1 2 3) (rev (default_mock_nodes 1 2 3)) /\
  NoDup (map available_storage_bytes
           (filter can_accept_offload (default_mock_nodes 1 2 3))) /\
  best_scan (rev (default_mock_nodes 1 2 3)) None
    = best_scan (default_mock_nodes 1 2 3) None.
Proof.
  assert (Hperm : Permutation (default_mock_nodes 1 2 3)
                    (rev (default_mock_nodes 1 2 3)))
    by apply Permutation_rev.
  assert (Hnd : NoDup (map available_storage_bytes
                         (filter can_accept_offload
                            (default_mock_nodes 1 2 3)))).
  { cbn. repeat constructor; cbn; intuition discriminate. }
  split; [exact Hperm|]. split; [exact Hnd|].
  symmetry.
  exact (proj1 (auto_select_order_independent fresh_manager _ _ Hperm Hnd)).
Defined.

(** ** Names of the statuses *)

(** X24: [to_string] gives the eight statuses eight different names: two
    statuses have the same name only if they are the same status. *)
Theorem to_string_injective (a b : OffloadStatus) :
  to_string a = to_string b <-> a = b.
Proof.
  split; [|intros ->; reflexivity].
  destruct a, b; intros H; try reflexivity; discriminate H.
Qed.

(** ** The remaining estimate at the ends of an operation *)

(** X25: [estimated_time_remaining] is zero right after an accepted start
    (no rate is on record yet) and after a successful completion (nothing
    is pending), whatever rate had been recorded; in neither case is the
    quotient formed. *)
Theorem estimate_zero_at_the_ends (m : MockOffloadManager) :
  (forall now,
     estimated_time_remaining
       (progress_ (post (simulate_complete true now m))) = Some 0 /\
     option_map (fun r => estimated_time_remaining (final_progress r))
       (last_result_ (post (simulate_complete true now m)))
       = Some (Some 0)) /\
  (forall data_ids now,
     start_hook_ m = None ->
     retval (start_offload data_ids now m) = true ->
     estimated_time_remaining
       (progress_ (post (start_offload data_ids now m))) = Some 0).
Proof.
  split.
  - intros now. destruct_manager m.
    unfold simulate_complete, notify_complete, estimated_time_remaining.
    destruct scb, ccb, st; mstep; rewrite orb_true_r; split; reflexivity.
  - intros data_ids now Hhook Hok.
    destruct (start_offload_progress m data_ids now Hhook Hok) as [-> _].
    reflexivity.
Qed.
